(** * generate_env.py: secrets, signed tokens and template substitution

    A shallow embedding of [generate_env.py] and the properties of its
    four components: the random value generator, the token signer, the
    value-set builder and the template substitution.

    Conventions.
    - A Python [str] is a [string]: a sequence of code points below 256.
    - A Python [int] is a [Z].
    - A [Dict[str, str]] is an association list in insertion order: the
      substitution loop iterates over [items()] and stops at the first
      match, so the order is part of the behaviour.
    - The operating system (random source, clock, file system) is an
      explicit [World] threaded through a state-and-exception monad. *)

From Stdlib Require Import ZArith List String Ascii Bool Lia.
From Stdlib Require Import Numbers.DecimalString.
From stdpp Require Import gmap strings.
Import ListNotations.

Local Open Scope string_scope.

(** ** Python string primitives *)

Module PyStr.

(** [str.isspace] on one character, for code points below 256:
    TAB, LF, VT, FF, CR, FS, GS, RS, US, SPACE, NEL and NBSP. *)
Definition isspace (c : ascii) : bool :=
  let n := nat_of_ascii c in
  ((9 <=? n)%nat && (n <=? 13)%nat) || ((28 <=? n)%nat && (n <=? 32)%nat)
  || (n =? 133)%nat || (n =? 160)%nat.

(** [s.lstrip()] *)
Fixpoint lstrip (s : string) : string :=
  match s with
  | EmptyString => EmptyString
  | String c s' => if isspace c then lstrip s' else s
  end.

(** [s.rstrip()] *)
Fixpoint rstrip (s : string) : string :=
  match s with
  | EmptyString => EmptyString
  | String c s' =>
      match rstrip s' with
      | EmptyString => if isspace c then EmptyString else String c EmptyString
      | r => String c r
      end
  end.

(** [s.strip()] *)
Definition strip (s : string) : string := lstrip (rstrip s).

(** [s.startswith(p)] *)
Definition startswith (s p : string) : bool := String.prefix p s.

(** [sep.join(parts)] *)
Fixpoint join (sep : string) (parts : list string) : string :=
  match parts with
  | [] => EmptyString
  | [p] => p
  | p :: rest => p +:+ sep +:+ join sep rest
  end.

(** [s.split(sep)] for a one-character separator. *)
Fixpoint split (sep : ascii) (s : string) : list string :=
  match s with
  | EmptyString => [EmptyString]
  | String c s' =>
      if Ascii.eqb c sep then EmptyString :: split sep s'
      else match split sep s' with
           | [] => [String c EmptyString]
           | p :: ps => String c p :: ps
           end
  end.

(** First and last character of a string. *)
Definition first_char (s : string) : option ascii :=
  match s with
  | EmptyString => None
  | String c _ => Some c
  end.

Fixpoint last_char (s : string) : option ascii :=
  match s with
  | EmptyString => None
  | String c EmptyString => Some c
  | String _ s' => last_char s'
  end.

(** The string has no leading whitespace / no trailing whitespace. *)
Definition no_leading_space (s : string) : bool :=
  match first_char s with
  | Some c => negb (isspace c)
  | None => true
  end.

Definition no_trailing_space (s : string) : bool :=
  match last_char s with
  | Some c => negb (isspace c)
  | None => true
  end.

(** Membership of a character in a string, as in [c in s]. *)
Fixpoint contains (s : string) (c : ascii) : bool :=
  match s with
  | EmptyString => false
  | String d s' => Ascii.eqb d c || contains s' c
  end.

(** Every character of [s] satisfies [p]. *)
Fixpoint all_chars (p : ascii -> bool) (s : string) : bool :=
  match s with
  | EmptyString => true
  | String c s' => p c && all_chars p s'
  end.

(** Text-mode reading translates [\r\n] and a lone [\r] to [\n]. *)
Definition LF : ascii := ascii_of_nat 10.
Definition CR : ascii := ascii_of_nat 13.

Fixpoint universal_newlines (s : string) : string :=
  match s with
  | EmptyString => EmptyString
  | String c s' =>
      if Ascii.eqb c CR then
        match s' with
        | String d _ =>
            if Ascii.eqb d LF then universal_newlines s'
            else String LF (universal_newlines s')
        | EmptyString => String LF EmptyString
        end
      else String c (universal_newlines s')
  end.

(** [f.readlines()] on translated text: the lines with their
    terminating [\n] kept; a last line without one is kept as it is. *)
Fixpoint readlines (s : string) : list string :=
  match s with
  | EmptyString => []
  | String c s' =>
      if Ascii.eqb c LF then String c EmptyString :: readlines s'
      else match readlines s' with
           | [] => [String c EmptyString]
           | l :: ls => String c l :: ls
           end
  end.

End PyStr.

(** ** The world outside the program *)

(** A path names a regular file with its text, or a directory. *)
Inductive node : Type :=
| File (content : string)
| Directory.

(** The random source and the clock are oracles: [entropy w k] is the
    k-th number the system source hands out and [clock w k] the k-th
    reading of [int(time.time())]. [drawn] and [reads] count the
    numbers and readings consumed so far. *)
Record World : Type := mkWorld {
  entropy : nat -> nat;
  drawn : nat;
  clock : nat -> Z;
  reads : nat;
  fs : gmap string node
}.

(** The exceptions the program can meet. *)
Inductive exn : Type :=
| FileNotFoundError (msg : string)
| IsADirectoryError (path : string)
| IndexError (msg : string).

Inductive result (A : Type) : Type :=
| Ok (a : A)
| Raise (e : exn).
Arguments Ok {A} a.
Arguments Raise {A} e.

(** Computations: a result or an exception, and the world afterwards. *)
Definition M (A : Type) : Type := World -> result A * World.

Definition ret {A} (a : A) : M A := fun w => (Ok a, w).

Definition raise {A} (e : exn) : M A := fun w => (Raise e, w).

Definition bind {A B} (c : M A) (k : A -> M B) : M B :=
  fun w =>
    match c w with
    | (Ok a, w') => k a w'
    | (Raise e, w') => (Raise e, w')
    end.

Notation "x <- c ;; k" := (bind c (fun x => k))
  (at level 62, c at next level, right associativity).

(** [n] runs of [c], collecting the results: a loop over [range(n)]. *)
Fixpoint repeatM {A} (n : nat) (c : M A) : M (list A) :=
  match n with
  | O => ret []
  | S n' => x <- c ;; xs <- repeatM n' c ;; ret (x :: xs)
  end.

(** [secrets.choice(seq)]: [seq[randbelow(len(seq))]]. The oracle's
    number reduced modulo the length stands for the index drawn; an
    empty sequence raises [IndexError]. *)
Definition secrets_choice (seq : string) : M ascii :=
  fun w =>
    match String.length seq with
    | O => (Raise (IndexError "Cannot choose from an empty sequence"), w)
    | S _ =>
        let i := (entropy w (drawn w) mod String.length seq)%nat in
        let w' := mkWorld (entropy w) (S (drawn w)) (clock w) (reads w) (fs w) in
        match String.get i seq with
        | Some c => (Ok c, w')
        | None => (Raise (IndexError "string index out of range"), w')
        end
    end.

(** [int(time.time())] *)
Definition time_time : M Z :=
  fun w =>
    (Ok (clock w (reads w)),
     mkWorld (entropy w) (drawn w) (clock w) (S (reads w)) (fs w)).

(** [os.path.exists(path)] *)
Definition os_path_exists (path : string) : M bool :=
  fun w => (Ok (bool_decide (is_Some (fs w !! path))), w).

(** [with open(path, 'r') as f: f.readlines()] on a file system whose
    entries are readable text files and directories: a missing path and
    a directory raise; every other failure of the operating system
    (permissions, bytes that do not decode) is outside this model, so
    nothing below states that a read succeeds. *)
Definition open_readlines (path : string) : M (list string) :=
  fun w =>
    match fs w !! path with
    | None => (Raise (FileNotFoundError path), w)
    | Some Directory => (Raise (IsADirectoryError path), w)
    | Some (File content) =>
        (Ok (PyStr.readlines (PyStr.universal_newlines content)), w)
    end.

(** [with open(path, 'w') as f: f.write(text)]: the file is created or
    truncated, then holds [text]. A directory raises before anything is
    changed. Paths are names of distinct entries (no links, one
    spelling per file), and a write that fails after the truncation
    (permissions, encoding, a full disk) is outside this model, so
    nothing below states that a write succeeds, that a failure leaves
    the file as it was, or that other paths keep their content. *)
Definition open_write (path : string) (text : string) : M unit :=
  fun w =>
    match fs w !! path with
    | Some Directory => (Raise (IsADirectoryError path), w)
    | _ =>
        (Ok tt,
         mkWorld (entropy w) (drawn w) (clock w) (reads w)
                 (<[path := File text]> (fs w)))
    end.

(** ** string constants of the [string] module *)

Definition ascii_lowercase : string := "abcdefghijklmnopqrstuvwxyz".
Definition ascii_uppercase : string := "ABCDEFGHIJKLMNOPQRSTUVWXYZ".
Definition ascii_letters : string := ascii_lowercase +:+ ascii_uppercase.
Definition digits : string := "0123456789".

(** ** generate_random_string, generate_jwt_secret *)

Definition safe_special : string := "!@#$%^&*()-_=+[]{}|;:,.<>?".

(** The alphabet the generator draws from. *)
Definition alphabet_of (include_special : bool) : string :=
  let alphabet := ascii_letters +:+ digits in
  if include_special then alphabet +:+ safe_special else alphabet.

Definition generate_random_string (length : Z) (include_special : bool)
  : M string :=
  let alphabet := alphabet_of include_special in
  chars <- repeatM (Z.to_nat length) (secrets_choice alphabet) ;;
  ret (PyStr.join "" (map (fun c => String c EmptyString) chars)).

Definition generate_jwt_secret (length : Z) : M string :=
  generate_random_string length false.

(** ** The token library: JSON text, base64url, UTF-8 *)

Module Json.

(** The values a claims object of this program holds. *)
Inductive value : Type :=
| JStr (s : string)
| JInt (n : Z).

Definition dquote : ascii := ascii_of_nat 34.
Definition backslash : ascii := ascii_of_nat 92.

Definition hex_digit (n : nat) : ascii :=
  match String.get n "0123456789abcdef" with
  | Some c => c
  | None => "0"%char
  end.

(** [json.dumps] escapes the quote, the backslash and every character
    outside the printable ASCII range. *)
Definition escape_char (c : ascii) : string :=
  let n := nat_of_ascii c in
  if (n =? 34)%nat then String backslash (String dquote EmptyString)
  else if (n =? 92)%nat then String backslash (String backslash EmptyString)
  else if (n =? 8)%nat then String backslash "b"
  else if (n =? 9)%nat then String backslash "t"
  else if (n =? 10)%nat then String backslash "n"
  else if (n =? 12)%nat then String backslash "f"
  else if (n =? 13)%nat then String backslash "r"
  else if (32 <=? n)%nat && (n <=? 126)%nat then String c EmptyString
  else String backslash
         ("u00" +:+ String (hex_digit (n / 16))
                      (String (hex_digit (n mod 16)) EmptyString)).

Fixpoint escape (s : string) : string :=
  match s with
  | EmptyString => EmptyString
  | String c s' => escape_char c +:+ escape s'
  end.

Definition dumps_str (s : string) : string :=
  String dquote (escape s +:+ String dquote EmptyString).

Definition dumps_int (n : Z) : string :=
  NilEmpty.string_of_int (Z.to_int n).

Definition dumps_value (v : value) : string :=
  match v with
  | JStr s => dumps_str s
  | JInt n => dumps_int n
  end.

(** [json.dumps(obj, separators=(",", ":"))] on an object. *)
Definition dumps (obj : list (string * value)) : string :=
  "{" +:+ PyStr.join ","
            (map (fun kv => dumps_str (fst kv) +:+ ":" +:+ dumps_value (snd kv))
                 obj)
      +:+ "}".

(** [obj[key]] *)
Fixpoint get (obj : list (string * value)) (key : string) : option value :=
  match obj with
  | [] => None
  | (k, v) :: rest => if String.eqb k key then Some v else get rest key
  end.

End Json.

Module Base64.

Definition urlsafe_alphabet : string :=
  "ABCDEFGHIJKLMNOPQRSTUVWXYZabcdefghijklmnopqrstuvwxyz0123456789-_".

Definition sextet (n : nat) : ascii :=
  match String.get n urlsafe_alphabet with
  | Some c => c
  | None => "A"%char
  end.

Definition code (b : Byte.byte) : nat := nat_of_ascii (ascii_of_byte b).

(** [base64.urlsafe_b64encode(bs)] with the [=] padding removed. *)
Fixpoint urlsafe_encode (bs : list Byte.byte) : string :=
  match bs with
  | [] => EmptyString
  | [a] =>
      String (sextet (code a / 4))
        (String (sextet (code a mod 4 * 16)) EmptyString)
  | [a; b] =>
      String (sextet (code a / 4))
        (String (sextet (code a mod 4 * 16 + code b / 16))
           (String (sextet (code b mod 16 * 4)) EmptyString))
  | a :: b :: c :: rest =>
      String (sextet (code a / 4))
        (String (sextet (code a mod 4 * 16 + code b / 16))
           (String (sextet (code b mod 16 * 4 + code c / 64))
              (String (sextet (code c mod 64)) (urlsafe_encode rest))))
  end.

End Base64.

(** [s.encode("utf-8")] for code points below 256. *)
Fixpoint utf8 (s : string) : list Byte.byte :=
  match s with
  | EmptyString => []
  | String c s' =>
      let n := nat_of_ascii c in
      if (n <? 128)%nat then byte_of_ascii c :: utf8 s'
      else byte_of_ascii (ascii_of_nat (192 + n / 64))
             :: byte_of_ascii (ascii_of_nat (128 + n mod 64)) :: utf8 s'
  end.

Inductive algorithm : Type := HS256.

Definition algorithm_name (alg : algorithm) : string :=
  match alg with HS256 => "HS256" end.

Definition DOT : ascii := "."%char.

Section Program.

(** HMAC-SHA256 of the cryptography library: key, message, digest. *)
Variable hmac_sha256 : list Byte.byte -> list Byte.byte -> list Byte.byte.

Definition sign (alg : algorithm) (key msg : list Byte.byte)
  : list Byte.byte :=
  match alg with HS256 => hmac_sha256 key msg end.

(** The first two parts of a token, joined: what gets signed. *)
Definition signing_input (payload : list (string * Json.value))
    (alg : algorithm) : string :=
  let header := [("alg", Json.JStr (algorithm_name alg));
                 ("typ", Json.JStr "JWT")] in
  Base64.urlsafe_encode (utf8 (Json.dumps header))
    +:+ String DOT (Base64.urlsafe_encode (utf8 (Json.dumps payload))).

(** Modelled from the spec: [jwt.encode(payload, key, algorithm=alg)]
    belongs to the PyJWT package, which is not part of this repository.
    The compact serialization is the one the specification describes:
    three dot-separated parts, each base64url without padding; the
    header encodes the object with alg = HS256 and typ = JWT, the
    payload encodes the claims, and the signature is the keyed hash of
    [header.payload] under the secret. *)
Definition jwt_encode (payload : list (string * Json.value))
    (key : string) (alg : algorithm) : string :=
  let msg := signing_input payload alg in
  msg +:+ String DOT
            (Base64.urlsafe_encode (sign alg (utf8 key) (utf8 msg))).

(** ** generate_jwt *)

Definition default_role : string := "service_role".
Definition default_exp_hours : Z := 168.

Definition generate_jwt (jwt_secret role : string) (exp_hours : Z)
  : M string :=
  current_time <- time_time ;;
  let payload := [("role", Json.JStr role);
                  ("iss", Json.JStr "supabase");
                  ("iat", Json.JInt current_time);
                  ("exp", Json.JInt (current_time + exp_hours * 3600))] in
  ret (jwt_encode payload jwt_secret HS256).

(** ** generate_env_values

    The secret comes first; the entries of the dictionary display are
    then evaluated from top to bottom. *)
Definition generate_env_values : M (list (string * string)) :=
  jwt_secret <- generate_jwt_secret 40 ;;
  n8n_encryption_key <- generate_random_string 40 false ;;
  n8n_user_management_jwt_secret <- generate_random_string 40 false ;;
  postgres_password <- generate_random_string 32 true ;;
  anon_key <- generate_jwt jwt_secret "anon" default_exp_hours ;;
  service_role_key <-
    generate_jwt jwt_secret "service_role" default_exp_hours ;;
  dashboard_password <- generate_random_string 16 true ;;
  pooler_tenant_id <- generate_random_string 20 false ;;
  vault_enc_key <- generate_random_string 40 false ;;
  secret_key_base <- generate_random_string 64 false ;;
  logflare_logger_backend_api_key <- generate_random_string 40 false ;;
  logflare_api_key <- generate_random_string 40 false ;;
  smtp_user <- generate_random_string 12 false ;;
  smtp_pass <- generate_random_string 16 true ;;
  ret [("N8N_ENCRYPTION_KEY", n8n_encryption_key);
       ("N8N_USER_MANAGEMENT_JWT_SECRET", n8n_user_management_jwt_secret);
       ("POSTGRES_PASSWORD", postgres_password);
       ("JWT_SECRET", jwt_secret);
       ("ANON_KEY", anon_key);
       ("SERVICE_ROLE_KEY", service_role_key);
       ("DASHBOARD_USERNAME", "admin");
       ("DASHBOARD_PASSWORD", dashboard_password);
       ("POOLER_TENANT_ID", pooler_tenant_id);
       ("VAULT_ENC_KEY", vault_enc_key);
       ("SECRET_KEY_BASE", secret_key_base);
       ("LOGFLARE_LOGGER_BACKEND_API_KEY", logflare_logger_backend_api_key);
       ("LOGFLARE_API_KEY", logflare_api_key);
       ("SMTP_ADMIN_EMAIL", "admin@yourdomain.com");
       ("SMTP_USER", smtp_user);
       ("SMTP_PASS", smtp_pass);
       ("SMTP_SENDER_NAME", "Supabase Admin")].

(** [env_values[key]], as [dict.get]. *)
Fixpoint dict_get (env_values : list (string * string)) (key : string)
  : option string :=
  match env_values with
  | [] => None
  | (k, v) :: rest => if String.eqb k key then Some v else dict_get rest key
  end.

(** ** create_env_file *)

(** The inner loop over [env_values.items()]: the first key the line
    starts with (followed by [=]) replaces the line; [break]. *)
Fixpoint replace_first_match (env_values : list (string * string))
    (line : string) : string :=
  match env_values with
  | [] => line
  | (key, value) :: rest =>
      if PyStr.startswith line (key +:+ "=") then key +:+ "=" +:+ value
      else replace_first_match rest line
  end.

(** One turn of the outer loop: [new_lines] after handling [line]. *)
Definition loop_body (env_values : list (string * string))
    (new_lines : list string) (line : string) : list string :=
  let line := PyStr.strip line in
  if String.eqb line EmptyString || PyStr.startswith line "#" then
    new_lines ++ [line]
  else
    let line := replace_first_match env_values line in
    new_lines ++ [line].

Definition process_lines (env_values : list (string * string))
    (env_lines : list string) : list string :=
  fold_left (loop_body env_values) env_lines [].

Definition create_env_file (env_values : list (string * string)) : M unit :=
  found <- os_path_exists ".env.example" ;;
  if negb found then raise (FileNotFoundError ".env.example file not found!")
  else
    env_lines <- open_readlines ".env.example" ;;
    let new_lines := process_lines env_values env_lines in
    open_write ".env" (PyStr.join (String PyStr.LF EmptyString) new_lines).

(** What a single template line becomes: the line one turn of the loop
    appends (derived from [loop_body], see [loop_body_output]). *)
Definition output_line (env_values : list (string * string))
    (line : string) : string :=
  let line := PyStr.strip line in
  if String.eqb line EmptyString || PyStr.startswith line "#" then line
  else replace_first_match env_values line.

(** Modelled from the spec: verification of a token by a standard
    verifier holding the secret, which is not part of this repository.
    The token must have three parts and the third must be the encoded
    keyed hash of the first two. *)
Definition hs256_verify (key token : string) : bool :=
  match PyStr.split DOT token with
  | [header; body; signature] =>
      String.eqb signature
        (Base64.urlsafe_encode
           (hmac_sha256 (utf8 key) (utf8 (header +:+ String DOT body))))
  | _ => false
  end.

End Program.

(** ** Worlds after an effect *)

(** The world after [n] draws from the random source. *)
Definition advance (w : World) (n : nat) : World :=
  mkWorld (entropy w) (n + drawn w) (clock w) (reads w) (fs w).

(** The world after one reading of the clock. *)
Definition tick (w : World) : World :=
  mkWorld (entropy w) (drawn w) (clock w) (S (reads w)) (fs w).

(** ** Character classes used in the statements *)

Definition newline_or_quote (c : ascii) : bool :=
  Ascii.eqb c PyStr.LF || Ascii.eqb c "'"%char || Ascii.eqb c Json.dquote.

Definition not_dot (c : ascii) : bool := negb (Ascii.eqb c DOT).

(** ** Concrete worlds *)

(** No files; a random source that cycles through the alphabet. *)
Definition sample_world : World :=
  mkWorld (fun k => 7 * k + 3)%nat 0
          (fun k => 1700000000 + Z.of_nat k)%Z 0 ∅.

(** A random source that always hands out 74. *)
Definition equals_world : World :=
  mkWorld (fun _ => 74%nat) 0 (fun _ => 0%Z) 0 ∅.

Definition sample_template : string :=
  PyStr.join (String PyStr.LF EmptyString)
    ["# comment"; "FOO=old"; "  BAZ = unchanged  "; ""; "BAR=old"].

(** A world whose working directory holds the template. *)
Definition template_world : World :=
  mkWorld (fun k => 7 * k + 3)%nat 0
          (fun k => 1700000000 + Z.of_nat k)%Z 0
          {[ ".env.example" := File sample_template ]}.

(** ** main *)

(** [str(e)]. The program raises [FileNotFoundError] itself, with its
    message as the only argument; the operating system's errors print
    as errno, text and file name. *)
Definition exn_str (e : exn) : string :=
  match e with
  | FileNotFoundError msg => msg
  | IsADirectoryError path => "[Errno 21] Is a directory: '" +:+ path +:+ "'"
  | IndexError msg => msg
  end.

(** Standard output is the list of the texts printed so far, one per
    call of [print]. *)
Definition print (text : string) (stdout : list string) : list string :=
  (stdout ++ [text])%list.

(** The loop over [env_values.items()] at the end of [main]. *)
Definition print_values (env_values : list (string * string))
    (stdout : list string) : list string :=
  fold_left
    (fun out kv =>
       print (snd kv) (print (String PyStr.LF (fst kv +:+ ":")) out))
    env_values stdout.

Section Driver.

Variable hmac_sha256 : list Byte.byte -> list Byte.byte -> list Byte.byte.

(** [main()]: what it prints and the world it leaves. Every exception
    is caught and reported. *)
Definition main (w : World) : list string * World :=
  let stdout := print "Generating environment variables..." [] in
  match generate_env_values hmac_sha256 w with
  | (Raise e, w1) => (print ("Error: " +:+ exn_str e) stdout, w1)
  | (Ok env_values, w1) =>
      let stdout := print "Creating .env file..." stdout in
      match create_env_file env_values w1 with
      | (Raise e, w2) => (print ("Error: " +:+ exn_str e) stdout, w2)
      | (Ok _, w2) =>
          let stdout :=
            print (String PyStr.LF
                     "Success! Your .env file has been created with the following values:")
                  stdout in
          (print_values env_values stdout, w2)
      end
  end.

End Driver.

(** ** Vocabulary of the further properties *)

Definition EQUALS : ascii := "="%char.

(** [line.partition("=")] when the line has an equals sign: the text
    before the first one and the text after it. *)
Fixpoint partition_eq (line : string) : option (string * string) :=
  match line with
  | EmptyString => None
  | String c rest =>
      if Ascii.eqb c EQUALS then Some (EmptyString, rest)
      else match partition_eq rest with
           | Some (key, tail) => Some (String c key, tail)
           | None => None
           end
  end.

(** The line a dictionary lookup of the text before the first equals
    sign would give. *)
Definition lookup_line (env_values : list (string * string))
    (line : string) : string :=
  match partition_eq line with
  | Some (key, _) =>
      match dict_get env_values key with
      | Some value => key +:+ "=" +:+ value
      | None => line
      end
  | None => line
  end.

Definition no_equals (key : string) : bool :=
  negb (PyStr.contains key EQUALS).

Definition not_newline (c : ascii) : bool :=
  negb (Ascii.eqb c PyStr.LF) && negb (Ascii.eqb c PyStr.CR).

(** The keys of the mapping the builder returns, in order. *)
Definition builder_keys : list string :=
  ["N8N_ENCRYPTION_KEY"; "N8N_USER_MANAGEMENT_JWT_SECRET";
   "POSTGRES_PASSWORD"; "JWT_SECRET"; "ANON_KEY"; "SERVICE_ROLE_KEY";
   "DASHBOARD_USERNAME"; "DASHBOARD_PASSWORD"; "POOLER_TENANT_ID";
   "VAULT_ENC_KEY"; "SECRET_KEY_BASE"; "LOGFLARE_LOGGER_BACKEND_API_KEY";
   "LOGFLARE_API_KEY"; "SMTP_ADMIN_EMAIL"; "SMTP_USER"; "SMTP_PASS";
   "SMTP_SENDER_NAME"].

(** The randomly generated entries: key, length, special characters. *)
Definition random_entries : list (string * (nat * bool)) :=
  [("N8N_ENCRYPTION_KEY", (40, false));
   ("N8N_USER_MANAGEMENT_JWT_SECRET", (40, false));
   ("POSTGRES_PASSWORD", (32, true));
   ("JWT_SECRET", (40, false));
   ("DASHBOARD_PASSWORD", (16, true));
   ("POOLER_TENANT_ID", (20, false));
   ("VAULT_ENC_KEY", (40, false));
   ("SECRET_KEY_BASE", (64, false));
   ("LOGFLARE_LOGGER_BACKEND_API_KEY", (40, false));
   ("LOGFLARE_API_KEY", (40, false));
   ("SMTP_USER", (12, false));
   ("SMTP_PASS", (16, true))]%nat.

(** The position of the first [c] in [s]. *)
Fixpoint index_of (c : ascii) (s : string) : nat :=
  match s with
  | EmptyString => 0
  | String d s' => if Ascii.eqb d c then 0 else S (index_of c s')
  end.

(** A world whose random source, from the current draw on, hands out
    the positions of the characters of [target] in [alphabet]. *)
Definition world_yielding (alphabet target : string) (w : World) : World :=
  mkWorld
    (fun k =>
       match String.get (k - drawn w) target with
       | Some c => index_of c alphabet
       | None => 0
       end)%nat
    (drawn w) (clock w) (reads w) (fs w).

(** A value that contains a line break. *)
Definition two_line_value : string := "a" +:+ String PyStr.LF "b".

(** A world whose template is the one line FOO=x. *)
Definition one_line_world : World :=
  mkWorld (fun k => 7 * k + 3)%nat 0
          (fun k => 1700000000 + Z.of_nat k)%Z 0
          {[ ".env.example" := File "FOO=x" ]}.

(** A world whose template is the line A=1 followed by a blank line. *)
Definition blank_tail_world : World :=
  mkWorld (fun k => 7 * k + 3)%nat 0
          (fun k => 1700000000 + Z.of_nat k)%Z 0
          {[ ".env.example" :=
               File ("A=1" +:+ String PyStr.LF (String PyStr.LF EmptyString)) ]}.


(** What [readlines] delivers: a body without line breaks, with or
    without one terminating newline. *)
Definition line_shape (l : string) : Prop :=
  exists body, PyStr.all_chars not_newline body = true /\
               (l = body \/ l = body +:+ String PyStr.LF EmptyString).

(** A stand-in keyed hash for running the driver on a concrete world. *)
Definition sample_mac (key msg : list Byte.byte) : list Byte.byte :=
  (firstn 16 key ++ firstn 16 msg)%list.


(** * Properties *)

(** ** Strings *)

Lemma append_assoc (a b c : string) : (a +:+ b) +:+ c = a +:+ (b +:+ c).
Proof.
  induction a as [|x a IH]; [reflexivity|].
  change (String x ((a +:+ b) +:+ c) = String x (a +:+ (b +:+ c))).
  now rewrite IH.
Qed.

Lemma append_cons (x : ascii) (a b : string) :
  String x a +:+ b = String x (a +:+ b).
Proof. reflexivity. Qed.

Lemma no_leading_lstrip s : PyStr.no_leading_space (PyStr.lstrip s) = true.
Proof.
  induction s as [|c s IH]; simpl; [reflexivity|].
  destruct (PyStr.isspace c) eqn:E; [exact IH|].
  unfold PyStr.no_leading_space; simpl. now rewrite E.
Qed.

Lemma no_trailing_rstrip s : PyStr.no_trailing_space (PyStr.rstrip s) = true.
Proof.
  unfold PyStr.no_trailing_space.
  induction s as [|c s IH]; simpl; [reflexivity|].
  destruct (PyStr.rstrip s) as [|d r] eqn:E.
  - destruct (PyStr.isspace c) eqn:Ec; simpl; [reflexivity|now rewrite Ec].
  - exact IH.
Qed.

Lemma no_trailing_lstrip s :
  PyStr.no_trailing_space s = true ->
  PyStr.no_trailing_space (PyStr.lstrip s) = true.
Proof.
  unfold PyStr.no_trailing_space.
  induction s as [|c s IH]; simpl; [reflexivity|].
  destruct (PyStr.isspace c) eqn:Ec; [|trivial].
  destruct s as [|d s]; [reflexivity|]. exact IH.
Qed.

(** A stripped string has whitespace at neither end. *)
Lemma strip_no_outer_space s :
  PyStr.no_leading_space (PyStr.strip s) = true /\
  PyStr.no_trailing_space (PyStr.strip s) = true.
Proof.
  unfold PyStr.strip. split.
  - apply no_leading_lstrip.
  - apply no_trailing_lstrip, no_trailing_rstrip.
Qed.

Lemma last_char_append a b :
  PyStr.last_char (a +:+ b) =
  match b with EmptyString => PyStr.last_char a | _ => PyStr.last_char b end.
Proof.
  induction a as [|c a IH]; simpl.
  - now destruct b.
  - rewrite IH. destruct a as [|d a]; simpl; destruct b; reflexivity.
Qed.

Lemma first_char_startswith line p :
  PyStr.startswith line p = true -> p <> EmptyString ->
  PyStr.first_char p = PyStr.first_char line.
Proof.
  unfold PyStr.startswith.
  destruct p as [|c p]; [congruence|]. intros H _.
  destruct line as [|d line]; simpl in H; [discriminate|].
  destruct (ascii_dec c d) as [->|]; [reflexivity|discriminate].
Qed.

Lemma get_contains s : forall i c,
  String.get i s = Some c -> PyStr.contains s c = true.
Proof.
  induction s as [|d s IH]; intros i c H; simpl in *; [discriminate|].
  destruct i as [|i].
  - injection H as ->. now rewrite Ascii.eqb_refl.
  - rewrite (IH _ _ H). apply orb_true_r.
Qed.

Lemma get_in_range s : forall i,
  (i < String.length s)%nat -> exists c, String.get i s = Some c.
Proof.
  induction s as [|d s IH]; intros i H; simpl in *; [lia|].
  destruct i as [|i]; [eauto|]. apply IH. lia.
Qed.

Lemma length_of_list_ascii chars :
  String.length (string_of_list_ascii chars) = List.length chars.
Proof. induction chars as [|c cs IH]; simpl; [reflexivity|now rewrite IH]. Qed.

Lemma all_chars_of_list p chars :
  List.Forall (fun c => p c = true) chars ->
  PyStr.all_chars p (string_of_list_ascii chars) = true.
Proof.
  induction 1 as [|c cs Hc _ IH]; simpl; [reflexivity|]. now rewrite Hc, IH.
Qed.

Lemma all_chars_impl (p q : ascii -> bool) s :
  (forall c, p c = true -> q c = true) ->
  PyStr.all_chars p s = true -> PyStr.all_chars q s = true.
Proof.
  intros Hpq. induction s as [|c s IH]; simpl; [trivial|].
  intros [Hc Hs]%andb_true_iff. now rewrite (Hpq _ Hc), IH.
Qed.

Lemma contains_all_chars p a c :
  PyStr.all_chars p a = true -> PyStr.contains a c = true -> p c = true.
Proof.
  induction a as [|d a IH]; simpl; [discriminate|].
  intros [Hd Ha]%andb_true_iff [He|Hc]%orb_true_iff.
  - apply Ascii.eqb_eq in He. now subst.
  - now apply IH.
Qed.

Lemma contains_append a b c :
  PyStr.contains (a +:+ b) c = PyStr.contains a c || PyStr.contains b c.
Proof.
  induction a as [|d a IH]; simpl; [reflexivity|]. now rewrite IH, orb_assoc.
Qed.

(** Joining one-character strings with the empty separator. *)
Lemma join_chars chars :
  PyStr.join "" (map (fun c => String c EmptyString) chars)
  = string_of_list_ascii chars.
Proof.
  induction chars as [|c cs IH]; [reflexivity|].
  change (map _ (c :: cs))
    with (String c EmptyString :: map (fun c => String c EmptyString) cs).
  destruct cs as [|d cs]; [reflexivity|].
  change (PyStr.join "" (String c EmptyString :: ?l))
    with (String c EmptyString +:+ "" +:+ PyStr.join "" l).
  simpl in *. now rewrite IH.
Qed.

Lemma split_no_sep s :
  PyStr.all_chars not_dot s = true -> PyStr.split DOT s = [s].
Proof.
  induction s as [|c s IH]; simpl; [reflexivity|].
  intros [Hc Hs]%andb_true_iff. unfold not_dot in Hc.
  apply negb_true_iff in Hc. rewrite Hc, (IH Hs). reflexivity.
Qed.

Lemma split_at_dot a b :
  PyStr.all_chars not_dot a = true ->
  PyStr.split DOT (a +:+ String DOT b) = a :: PyStr.split DOT b.
Proof.
  induction a as [|c a IH]; simpl.
  - intros _. reflexivity.
  - intros [Hc Ha]%andb_true_iff. unfold not_dot in Hc.
    apply negb_true_iff in Hc. rewrite Hc, (IH Ha). reflexivity.
Qed.

(** ** Running computations *)

Lemma bind_ok {A B} (c : M A) (k : A -> M B) w a w1 :
  c w = (Ok a, w1) -> bind c k w = k a w1.
Proof. intros H. unfold bind. now rewrite H. Qed.

Lemma advance_0 w : advance w 0 = w.
Proof. now destruct w. Qed.

(** ** The random value generator *)

Lemma secrets_choice_run seq w :
  seq <> EmptyString ->
  exists c, secrets_choice seq w = (Ok c, advance w 1) /\
            PyStr.contains seq c = true.
Proof.
  intros Hne. unfold secrets_choice.
  destruct (String.length seq) as [|n] eqn:El.
  - destruct seq; [congruence|discriminate].
  - destruct (get_in_range seq (entropy w (drawn w) mod S n)) as [c Hc].
    + rewrite El. apply Nat.mod_upper_bound. discriminate.
    + exists c. rewrite Hc. split; [reflexivity|]. eapply get_contains, Hc.
Qed.

Lemma repeatM_choice_run seq : seq <> EmptyString -> forall n w,
  exists chars, repeatM n (secrets_choice seq) w = (Ok chars, advance w n) /\
                List.length chars = n /\
                List.Forall (fun c => PyStr.contains seq c = true) chars.
Proof.
  intros Hne. induction n as [|n IH]; intros w; simpl.
  - exists []. rewrite advance_0. repeat split. constructor.
  - destruct (secrets_choice_run seq w Hne) as (c & Hc & Hin).
    destruct (IH (advance w 1)) as (cs & Hcs & Hlen & Hall).
    exists (c :: cs).
    rewrite (bind_ok _ _ _ _ _ Hc), (bind_ok _ _ _ _ _ Hcs).
    unfold ret. repeat split.
    + f_equal. unfold advance; simpl. f_equal. lia.
    + simpl. now rewrite Hlen.
    + now constructor.
Qed.

Lemma alphabet_nonempty special : alphabet_of special <> EmptyString.
Proof. now destruct special. Qed.

(** The generator never raises: it draws [length] characters (none for
    a length below one) from its alphabet. *)
Lemma generate_random_string_run (L : Z) (special : bool) (w : World) :
  exists s,
    generate_random_string L special w = (Ok s, advance w (Z.to_nat L)) /\
    String.length s = Z.to_nat L /\
    PyStr.all_chars (PyStr.contains (alphabet_of special)) s = true.
Proof.
  unfold generate_random_string.
  destruct (repeatM_choice_run _ (alphabet_nonempty special) (Z.to_nat L) w)
    as (cs & Hcs & Hlen & Hall).
  exists (string_of_list_ascii cs).
  rewrite (bind_ok _ _ _ _ _ Hcs). unfold ret.
  rewrite join_chars. repeat split.
  - now rewrite length_of_list_ascii.
  - now apply all_chars_of_list.
Qed.

(** C3: for every length L > 0 and either setting of the flag, the
    generator returns a string of length exactly L whose characters all
    belong to the ASCII letters and digits, or also to the fixed special
    set when the flag is set. *)
Theorem generate_random_string_length_and_alphabet
    (L : Z) (special : bool) (w : World) :
  (0 < L)%Z ->
  exists s w',
    generate_random_string L special w = (Ok s, w') /\
    Z.of_nat (String.length s) = L /\
    PyStr.all_chars
      (fun c => PyStr.contains ascii_letters c || PyStr.contains digits c
                || (special && PyStr.contains safe_special c)) s = true.
Proof.
  intros HL.
  destruct (generate_random_string_run L special w) as (s & Hrun & Hlen & Hall).
  exists s, (advance w (Z.to_nat L)). split; [exact Hrun|]. split; [lia|].
  revert Hall. apply all_chars_impl. intros c.
  destruct special; unfold alphabet_of; cbv zeta; rewrite !contains_append.
  - now rewrite andb_true_l.
  - now rewrite andb_false_l, orb_false_r.
Qed.

Lemma generate_random_string_length_and_alphabet_witness :
  exists s w',
    generate_random_string 10 true sample_world = (Ok s, w') /\
    Z.of_nat (String.length s) = 10%Z /\
    PyStr.all_chars
      (fun c => PyStr.contains ascii_letters c || PyStr.contains digits c
                || (true && PyStr.contains safe_special c)) s = true.
Proof.
  apply (generate_random_string_length_and_alphabet 10 true sample_world).
  lia.
Defined.

(** C2, as stated, fails: the special set contains the equals sign, and
    a random source that hands out 74 makes the generator return it. *)
Lemma special_alphabet_yields_equals_sign :
  PyStr.contains safe_special "="%char = true /\
  generate_random_string 1 true equals_world
  = (Ok "=", advance equals_world 1).
Proof. split; reflexivity. Qed.

(** C2, amended: with the flag set, the extended alphabet contains no
    newline and no quote character (it does contain the equals sign),
    so every character of a generated string, of any length, differs
    from newline, the single quote and the double quote. *)
Theorem special_alphabet_excludes_newline_and_quotes (L : Z) (w : World) :
  PyStr.all_chars (fun c => negb (newline_or_quote c)) (alphabet_of true)
  = true /\
  PyStr.contains (alphabet_of true) "="%char = true /\
  exists s w',
    generate_random_string L true w = (Ok s, w') /\
    Z.of_nat (String.length s) = Z.max 0 L /\
    PyStr.all_chars (fun c => negb (newline_or_quote c)) s = true.
Proof.
  split; [reflexivity|]. split; [reflexivity|].
  destruct (generate_random_string_run L true w) as (s & Hrun & Hlen & Hall).
  exists s, (advance w (Z.to_nat L)). split; [exact Hrun|]. split; [lia|].
  revert Hall. apply all_chars_impl. intros c Hc.
  apply (contains_all_chars (fun c => negb (newline_or_quote c))
           (alphabet_of true) c); [reflexivity|exact Hc].
Qed.

(** C7, as stated, fails: for the lengths 0 and -5 the generator
    returns the empty string and raises nothing. *)
Lemma nonpositive_length_does_not_raise :
  generate_random_string 0 false sample_world
  = (Ok EmptyString, sample_world) /\
  generate_random_string (-5) true sample_world
  = (Ok EmptyString, sample_world).
Proof. split; reflexivity. Qed.

(** C7, amended: for every length below one the generator returns the
    empty string, draws nothing from the random source and raises no
    error. *)
Theorem nonpositive_length_returns_empty
    (L : Z) (special : bool) (w : World) :
  (L <= 0)%Z -> generate_random_string L special w = (Ok EmptyString, w).
Proof.
  intros HL. unfold generate_random_string.
  replace (Z.to_nat L) with 0%nat by lia. reflexivity.
Qed.

Lemma nonpositive_length_returns_empty_witness :
  generate_random_string (-3) true sample_world
  = (Ok EmptyString, sample_world).
Proof.
  apply (nonpositive_length_returns_empty (-3) true sample_world). lia.
Defined.

(** ** The token signer and the value-set builder *)

Lemma sextet_in_alphabet n :
  PyStr.contains Base64.urlsafe_alphabet (Base64.sextet n) = true.
Proof.
  unfold Base64.sextet.
  destruct (String.get n Base64.urlsafe_alphabet) as [c|] eqn:E.
  - eapply get_contains, E.
  - reflexivity.
Qed.

Lemma urlsafe_encode_chars bs :
  PyStr.all_chars (PyStr.contains Base64.urlsafe_alphabet)
                  (Base64.urlsafe_encode bs) = true.
Proof.
  induction bs as [bs IH] using (induction_ltof1 _ (@List.length Byte.byte)).
  destruct bs as [|a [|b [|c rest]]];
    cbn [Base64.urlsafe_encode PyStr.all_chars];
    rewrite ?sextet_in_alphabet; try reflexivity.
  apply IH. unfold ltof. simpl. lia.
Qed.

(** An encoded part never contains the separating dot. *)
Lemma urlsafe_encode_no_dot bs :
  PyStr.all_chars not_dot (Base64.urlsafe_encode bs) = true.
Proof.
  eapply all_chars_impl; [|apply urlsafe_encode_chars].
  intros c Hc.
  apply (contains_all_chars not_dot Base64.urlsafe_alphabet c);
    [reflexivity|exact Hc].
Qed.

Ltac run_random :=
  match goal with
  | |- context [bind (generate_random_string ?L ?sp) _ ?w] =>
      let s := fresh "s" in
      let H := fresh "Hrun" in
      destruct (generate_random_string_run L sp w) as (s & H & _ & _);
      rewrite (bind_ok _ _ _ _ _ H)
  end.

Section TokenProperties.

Variable hmac_sha256 : list Byte.byte -> list Byte.byte -> list Byte.byte.

(** A token splits at its dots into exactly header, body, signature. *)
Lemma jwt_encode_parts payload key :
  let header := Base64.urlsafe_encode
                  (utf8 (Json.dumps [("alg", Json.JStr "HS256");
                                     ("typ", Json.JStr "JWT")])) in
  let body := Base64.urlsafe_encode (utf8 (Json.dumps payload)) in
  let signature :=
    Base64.urlsafe_encode
      (hmac_sha256 (utf8 key) (utf8 (header +:+ String DOT body))) in
  PyStr.split DOT (jwt_encode hmac_sha256 payload key HS256)
  = [header; body; signature].
Proof.
  intros header body signature.
  unfold jwt_encode, signing_input, sign, algorithm_name. cbv zeta.
  fold header. fold body. fold signature.
  rewrite append_assoc, append_cons.
  rewrite split_at_dot by apply urlsafe_encode_no_dot.
  rewrite split_at_dot by apply urlsafe_encode_no_dot.
  rewrite split_no_sep by apply urlsafe_encode_no_dot.
  reflexivity.
Qed.

Lemma jwt_encode_verifies payload key :
  hs256_verify hmac_sha256 key (jwt_encode hmac_sha256 payload key HS256)
  = true.
Proof.
  unfold hs256_verify. rewrite jwt_encode_parts. apply String.eqb_refl.
Qed.

(** The signer reads the clock once and never raises. *)
Lemma generate_jwt_run secret role h w :
  generate_jwt hmac_sha256 secret role h w
  = (Ok (jwt_encode hmac_sha256
           [("role", Json.JStr role); ("iss", Json.JStr "supabase");
            ("iat", Json.JInt (clock w (reads w)));
            ("exp", Json.JInt (clock w (reads w) + h * 3600))]
           secret HS256),
     tick w).
Proof. reflexivity. Qed.

(** C4: for every secret, role and expiry window of h hours, the signer
    builds the payload with role as given, iss = supabase, iat = the
    current Unix time in seconds and exp = iat + h*3600 (the default h
    is 168), and returns the three-part dot-separated token: encoded
    header, encoded payload, and the encoded HMAC-SHA256 of the first
    two parts under the secret. *)
Theorem generate_jwt_payload_and_serialization
    (secret role : string) (h : Z) (w : World) :
  let iat := clock w (reads w) in
  let payload := [("role", Json.JStr role); ("iss", Json.JStr "supabase");
                  ("iat", Json.JInt iat);
                  ("exp", Json.JInt (iat + h * 3600))] in
  let header := Base64.urlsafe_encode
                  (utf8 (Json.dumps [("alg", Json.JStr "HS256");
                                     ("typ", Json.JStr "JWT")])) in
  let body := Base64.urlsafe_encode (utf8 (Json.dumps payload)) in
  let signature :=
    Base64.urlsafe_encode
      (hmac_sha256 (utf8 secret) (utf8 (header +:+ String DOT body))) in
  exists token w',
    generate_jwt hmac_sha256 secret role h w = (Ok token, w') /\
    token = header +:+ String DOT body +:+ String DOT signature /\
    PyStr.split DOT token = [header; body; signature] /\
    hs256_verify hmac_sha256 secret token = true /\
    Json.get payload "role" = Some (Json.JStr role) /\
    Json.get payload "iss" = Some (Json.JStr "supabase") /\
    Json.get payload "iat" = Some (Json.JInt iat) /\
    Json.get payload "exp" = Some (Json.JInt (iat + h * 3600)) /\
    default_exp_hours = 168%Z.
Proof.
  intros iat payload header body signature.
  eexists _, _. split; [apply generate_jwt_run|].
  split; [|split; [apply jwt_encode_parts|
                   split; [apply jwt_encode_verifies|repeat split]]].
  unfold jwt_encode, signing_input, sign, algorithm_name. cbv zeta.
  fold iat. fold payload. fold header. fold body. fold signature.
  now rewrite append_assoc, append_cons.
Qed.

(** C5: in the mapping the builder returns, JWT_SECRET is the value
    generated by the first call, before any token is signed; it is
    stored once, and it is the signing secret of both ANON_KEY (role
    anon) and SERVICE_ROLE_KEY (role service_role), each of which
    verifies against it. *)
Theorem jwt_secret_generated_first_and_shared (w : World) :
  exists secret w1 env w',
    generate_jwt_secret 40 w = (Ok secret, w1) /\
    generate_env_values hmac_sha256 w = (Ok env, w') /\
    dict_get env "JWT_SECRET" = Some secret /\
    List.length
      (filter (fun kv => String.eqb (fst kv) "JWT_SECRET") env) = 1%nat /\
    (exists wa anon,
        (drawn w1 <= drawn wa)%nat /\ reads wa = reads w /\
        generate_jwt hmac_sha256 secret "anon" default_exp_hours wa
        = (Ok anon, tick wa) /\
        dict_get env "ANON_KEY" = Some anon /\
        hs256_verify hmac_sha256 secret anon = true) /\
    (exists wb service,
        (drawn w1 <= drawn wb)%nat /\ reads wb = S (reads w) /\
        generate_jwt hmac_sha256 secret "service_role" default_exp_hours wb
        = (Ok service, tick wb) /\
        dict_get env "SERVICE_ROLE_KEY" = Some service /\
        hs256_verify hmac_sha256 secret service = true).
Proof.
  unfold generate_env_values, generate_jwt_secret.
  do 4 run_random.
  match goal with
  | |- context [bind (generate_jwt _ _ "anon" _) _ ?x] => set (wa := x)
  end.
  rewrite (bind_ok _ _ _ _ _ (generate_jwt_run _ _ _ wa)).
  match goal with
  | |- context [bind (generate_jwt _ _ "service_role" _) _ ?x] =>
      set (wb := x)
  end.
  rewrite (bind_ok _ _ _ _ _ (generate_jwt_run _ _ _ wb)).
  do 8 run_random.
  exists s, (advance w (Z.to_nat 40)). eexists _, _.
  split; [exact Hrun|]. split; [reflexivity|].
  split; [reflexivity|]. split; [reflexivity|]. split.
  - exists wa. eexists. split; [simpl; lia|]. split; [reflexivity|].
    split; [apply generate_jwt_run|].
    split; [reflexivity|apply jwt_encode_verifies].
  - exists wb. eexists. split; [simpl; lia|]. split; [reflexivity|].
    split; [apply generate_jwt_run|].
    split; [reflexivity|apply jwt_encode_verifies].
Qed.

End TokenProperties.

(** ** Template substitution *)

Lemma loop_body_output env acc line :
  loop_body env acc line = (acc ++ [output_line env line])%list.
Proof.
  unfold loop_body, output_line.
  destruct (String.eqb (PyStr.strip line) EmptyString
            || PyStr.startswith (PyStr.strip line) "#"); reflexivity.
Qed.

Lemma fold_loop_body env lines acc :
  fold_left (loop_body env) lines acc
  = (acc ++ map (output_line env) lines)%list.
Proof.
  revert acc. induction lines as [|l lines IH]; intros acc; simpl.
  - now rewrite app_nil_r.
  - rewrite IH, loop_body_output, <- app_assoc. reflexivity.
Qed.

(** The loop handles the lines one by one, in order. *)
Lemma process_lines_map env lines :
  process_lines env lines = map (output_line env) lines.
Proof. unfold process_lines. now rewrite fold_loop_body. Qed.

Lemma replace_no_match env line :
  (forall k v, In (k, v) env -> PyStr.startswith line (k +:+ "=") = false) ->
  replace_first_match env line = line.
Proof.
  induction env as [|[k v] env IH]; intros H; simpl; [reflexivity|].
  rewrite (H k v) by (left; reflexivity).
  apply IH. intros k' v' Hin. apply (H k' v'). right; exact Hin.
Qed.

Lemma replace_cases env line :
  replace_first_match env line = line \/
  exists k v, In (k, v) env /\ PyStr.startswith line (k +:+ "=") = true /\
              replace_first_match env line = k +:+ "=" +:+ v.
Proof.
  induction env as [|[k v] env IH]; simpl; [left; reflexivity|].
  destruct (PyStr.startswith line (k +:+ "=")) eqn:E.
  - right. exists k, v. auto.
  - destruct IH as [IH|(k' & v' & Hin & Hs & Hr)]; [left; exact IH|].
    right. exists k', v'. auto.
Qed.

Lemma output_line_no_outer_space env line :
  (forall k v, In (k, v) env -> PyStr.no_trailing_space v = true) ->
  PyStr.no_leading_space (output_line env line) = true /\
  PyStr.no_trailing_space (output_line env line) = true.
Proof.
  intros Hv. unfold output_line.
  pose proof (strip_no_outer_space line) as [Hl Ht].
  set (s := PyStr.strip line) in *.
  destruct (String.eqb_spec s EmptyString) as [E|Hne]; simpl; [auto|].
  destruct (PyStr.startswith s "#"); [auto|].
  destruct (replace_cases env s) as [->|(k & v & Hin & Hs & ->)]; [auto|].
  split.
  - unfold PyStr.no_leading_space in *.
    apply first_char_startswith in Hs; [|now destruct k].
    replace (PyStr.first_char (k +:+ "=" +:+ v))
      with (PyStr.first_char (k +:+ "=")) by now destruct k.
    now rewrite Hs.
  - unfold PyStr.no_trailing_space in *.
    rewrite last_char_append. simpl.
    destruct v as [|c v]; [reflexivity|].
    apply (Hv k _ Hin).
Qed.

(** C1: the template lines # comment, FOO=old, BAR=old, BAZ=unchanged
    with the mapping FOO -> new1, BAR -> new2 become # comment,
    FOO=new1, BAR=new2, BAZ=unchanged; the same holds for the lines as
    read from a file holding that text. The result depends on the
    lines and the mapping only. *)
Theorem substitution_example :
  process_lines [("FOO", "new1"); ("BAR", "new2")]
    ["# comment"; "FOO=old"; "BAR=old"; "BAZ=unchanged"]
  = ["# comment"; "FOO=new1"; "BAR=new2"; "BAZ=unchanged"]
  /\
  process_lines [("FOO", "new1"); ("BAR", "new2")]
    (PyStr.readlines
       (PyStr.universal_newlines
          (PyStr.join (String PyStr.LF EmptyString)
             ["# comment"; "FOO=old"; "BAR=old"; "BAZ=unchanged"])))
  = ["# comment"; "FOO=new1"; "BAR=new2"; "BAZ=unchanged"].
Proof. split; reflexivity. Qed.

(** C6: when the template file does not exist, substitution raises the
    not-found error and no other, and the world, the output file
    included, is left as it was. *)
Theorem missing_template_raises_not_found
    (env : list (string * string)) (w : World) :
  fs w !! ".env.example" = None ->
  create_env_file env w
  = (Raise (FileNotFoundError ".env.example file not found!"), w).
Proof.
  intros H. unfold create_env_file, bind, os_path_exists. rewrite H.
  rewrite bool_decide_eq_false_2 by (intros [x Hx]; discriminate).
  reflexivity.
Qed.

Lemma missing_template_raises_not_found_witness :
  create_env_file [("FOO", "new1")] sample_world
  = (Raise (FileNotFoundError ".env.example file not found!"), sample_world).
Proof.
  apply (missing_template_raises_not_found [("FOO", "new1")] sample_world).
  reflexivity.
Defined.

(** C8, as stated, fails: a line with surrounding spaces that is not
    empty, not a comment and starts with no known key followed by the
    equals sign is written without those spaces; and an indented line
    that starts with no known key is matched, after stripping, and
    replaced. *)
Lemma unmatched_line_loses_surrounding_space :
  "  BAZ=unchanged " <> EmptyString /\
  PyStr.startswith "  BAZ=unchanged " "#" = false /\
  (forall k v, In (k, v) [("FOO", "new1")] ->
               PyStr.startswith "  BAZ=unchanged " (k +:+ "=") = false) /\
  process_lines [("FOO", "new1")] ["  BAZ=unchanged "] = ["BAZ=unchanged"] /\
  "BAZ=unchanged" <> "  BAZ=unchanged " /\
  PyStr.startswith "  FOO=old" "FOO=" = false /\
  process_lines [("FOO", "new1")] ["  FOO=old"] = ["FOO=new1"].
Proof.
  repeat split; try discriminate.
  intros k v [H|[]]. now inversion H.
Qed.

(** C8, amended: for every template line whose stripped form is not
    empty, is not a comment and does not begin with a known key
    followed by the equals sign, the corresponding output line is the
    stripped input line: the same characters, original value included,
    without the surrounding whitespace. *)
Theorem unmatched_line_passes_stripped
    (env : list (string * string)) (lines : list string)
    (i : nat) (line : string) :
  lines !! i = Some line ->
  PyStr.strip line <> EmptyString ->
  PyStr.startswith (PyStr.strip line) "#" = false ->
  (forall k v, In (k, v) env ->
               PyStr.startswith (PyStr.strip line) (k +:+ "=") = false) ->
  process_lines env lines !! i = Some (PyStr.strip line).
Proof.
  intros Hi Hne Hc Hk.
  rewrite process_lines_map, list_lookup_fmap, Hi. simpl. f_equal.
  unfold output_line.
  destruct (String.eqb_spec (PyStr.strip line) EmptyString) as [E|_];
    [contradiction|].
  rewrite Hc. simpl. now apply replace_no_match.
Qed.

Lemma unmatched_line_passes_stripped_witness :
  process_lines [("FOO", "new1")] ["FOO=old"; "  BAZ=unchanged "] !! 1%nat
  = Some (PyStr.strip "  BAZ=unchanged ").
Proof.
  apply (unmatched_line_passes_stripped
           [("FOO", "new1")] ["FOO=old"; "  BAZ=unchanged "] 1
           "  BAZ=unchanged ").
  - reflexivity.
  - discriminate.
  - reflexivity.
  - intros k v [H|[]]. now inversion H.
Defined.






(** ** The builder's mapping in the substitution *)

Lemma all_chars_no_trailing_space p s :
  (forall c, p c = true -> PyStr.isspace c = false) ->
  PyStr.all_chars p s = true -> PyStr.no_trailing_space s = true.
Proof.
  intros Hp. unfold PyStr.no_trailing_space.
  induction s as [|c s IH]; [reflexivity|].
  cbn [PyStr.all_chars]. intros [Hc Hs]%andb_true_iff.
  destruct s as [|d s]; [simpl; now rewrite (Hp _ Hc)|].
  exact (IH Hs).
Qed.

Lemma random_value_no_trailing_space special s :
  PyStr.all_chars (PyStr.contains (alphabet_of special)) s = true ->
  PyStr.no_trailing_space s = true.
Proof.
  apply all_chars_no_trailing_space. intros c Hc.
  apply negb_true_iff.
  apply (contains_all_chars (fun c => negb (PyStr.isspace c))
           (alphabet_of special) c); [now destruct special|exact Hc].
Qed.

Ltac run_random_keep :=
  match goal with
  | |- context [bind (generate_random_string ?L ?sp) _ ?w] =>
      let s := fresh "s" in
      let H := fresh "Hrun" in
      let Ha := fresh "Hall" in
      destruct (generate_random_string_run L sp w) as (s & H & _ & Ha);
      rewrite (bind_ok _ _ _ _ _ H);
      apply random_value_no_trailing_space in Ha
  end.

Section BuilderInSubstitution.

Variable hmac_sha256 : list Byte.byte -> list Byte.byte -> list Byte.byte.

Lemma token_no_trailing_space payload key :
  PyStr.no_trailing_space (jwt_encode hmac_sha256 payload key HS256) = true.
Proof.
  unfold jwt_encode, PyStr.no_trailing_space. cbv zeta.
  rewrite last_char_append.
  set (sig := Base64.urlsafe_encode _).
  change (String DOT sig) with ("." +:+ sig).
  rewrite last_char_append.
  pose proof (urlsafe_encode_chars
                (sign hmac_sha256 HS256 (utf8 key)
                   (utf8 (signing_input payload HS256)))) as Hs.
  fold sig in Hs. destruct sig as [|c sig]; [reflexivity|].
  apply (all_chars_no_trailing_space _ _) in Hs; [exact Hs|].
  intros d Hd. apply negb_true_iff.
  apply (contains_all_chars (fun c => negb (PyStr.isspace c))
           Base64.urlsafe_alphabet d); [reflexivity|exact Hd].
Qed.

(** No value the builder produces ends in whitespace. *)
Lemma builder_values_no_trailing_space (w : World) :
  exists env w',
    generate_env_values hmac_sha256 w = (Ok env, w') /\
    forall k v, In (k, v) env -> PyStr.no_trailing_space v = true.
Proof.
  unfold generate_env_values, generate_jwt_secret.
  do 4 run_random_keep.
  do 2 rewrite (bind_ok _ _ _ _ _ (generate_jwt_run hmac_sha256 _ _ _ _)).
  do 8 run_random_keep.
  eexists _, _. split; [reflexivity|].
  intros k v Hin. simpl in Hin.
  repeat (destruct Hin as [Hin|Hin];
          [inversion Hin; subst;
           first [assumption|apply token_no_trailing_space|reflexivity]|]).
  contradiction.
Qed.

(** With the builder's mapping, every line written has whitespace at
    neither end. *)
Lemma builder_output_lines_no_outer_space (w : World) (lines : list string) :
  exists env w',
    generate_env_values hmac_sha256 w = (Ok env, w') /\
    Forall (fun l => PyStr.no_leading_space l = true /\
                     PyStr.no_trailing_space l = true)
           (process_lines env lines).
Proof.
  destruct (builder_values_no_trailing_space w) as (env & w' & Hrun & Hv).
  exists env, w'. split; [exact Hrun|].
  rewrite process_lines_map. apply Forall_forall.
  intros l [line [-> _]]%list_elem_of_fmap.
  now apply output_line_no_outer_space.
Qed.

End BuilderInSubstitution.

(** * Further properties *)

(** ** The builder's mapping *)

Ltac run_random_full :=
  match goal with
  | |- context [bind (generate_random_string ?L ?sp) _ ?w] =>
      let s := fresh "s" in
      let H := fresh "Hrun" in
      let Hl := fresh "Hlen" in
      let Ha := fresh "Hall" in
      destruct (generate_random_string_run L sp w) as (s & H & Hl & Ha);
      rewrite (bind_ok _ _ _ _ _ H); clear H
  end.

Section BuilderTable.

Variable hmac_sha256 : list Byte.byte -> list Byte.byte -> list Byte.byte.

(** One run of the builder, spelled out. *)
Lemma generate_env_values_run (w : World) :
  exists env,
    generate_env_values hmac_sha256 w
    = (Ok env,
       mkWorld (entropy w) (400 + drawn w) (clock w) (S (S (reads w)))
               (fs w)) /\
    map fst env = builder_keys /\
    dict_get env "DASHBOARD_USERNAME" = Some "admin" /\
    dict_get env "SMTP_ADMIN_EMAIL" = Some "admin@yourdomain.com" /\
    dict_get env "SMTP_SENDER_NAME" = Some "Supabase Admin" /\
    Forall (fun e =>
              exists v, dict_get env (fst e) = Some v /\
                        String.length v = fst (snd e) /\
                        PyStr.all_chars
                          (PyStr.contains (alphabet_of (snd (snd e)))) v = true)
           random_entries.
Proof.
  unfold generate_env_values, generate_jwt_secret.
  do 4 run_random_full.
  do 2 rewrite (bind_ok _ _ _ _ _ (generate_jwt_run hmac_sha256 _ _ _ _)).
  do 8 run_random_full.
  eexists. split.
  - reflexivity.
  - split; [reflexivity|]. do 3 (split; [reflexivity|]).
    unfold random_entries.
    repeat (apply Forall_cons; split;
            [eexists; split; [reflexivity|]; split; assumption|]).
    apply Forall_nil. exact I.
Qed.

End BuilderTable.

(** ** Matching a key *)

Lemma prefix_append p r : String.prefix p (p +:+ r) = true.
Proof.
  induction p as [|c p IH]; [now destruct r|].
  rewrite append_cons. simpl.
  destruct (ascii_dec c c); [exact IH|congruence].
Qed.

Lemma prefix_inv p : forall s,
  String.prefix p s = true -> exists r, s = p +:+ r.
Proof.
  induction p as [|c p IH]; intros s H.
  - exists s. reflexivity.
  - destruct s as [|d s]; simpl in H; [discriminate|].
    destruct (ascii_dec c d) as [->|]; [|discriminate].
    destruct (IH s H) as [r ->]. exists r. reflexivity.
Qed.

Lemma partition_eq_inv line : forall key tail,
  partition_eq line = Some (key, tail) ->
  line = key +:+ "=" +:+ tail /\ no_equals key = true.
Proof.
  induction line as [|c line IH]; intros key tail H; simpl in H;
    [discriminate|].
  destruct (Ascii.eqb c EQUALS) eqn:E.
  - apply Ascii.eqb_eq in E. subst c. injection H as <- <-.
    split; reflexivity.
  - destruct (partition_eq line) as [[k t]|]; [|discriminate].
    injection H as <- <-. destruct (IH k t eq_refl) as [-> Hk].
    split; [reflexivity|].
    unfold no_equals in *. simpl. now rewrite E.
Qed.

Lemma partition_eq_append key tail :
  no_equals key = true ->
  partition_eq (key +:+ "=" +:+ tail) = Some (key, tail).
Proof.
  unfold no_equals. induction key as [|c key IH]; intros H.
  - reflexivity.
  - simpl in H. apply negb_true_iff, orb_false_iff in H as [Hc Hk].
    rewrite append_cons. simpl. rewrite Hc, IH; [reflexivity|].
    now rewrite Hk.
Qed.

(** A key without an equals sign matches a line exactly when it is the
    whole text before the line's first equals sign. *)
Lemma startswith_key_partition (line key : string) :
  no_equals key = true ->
  (PyStr.startswith line (key +:+ "=") = true <->
   exists tail, partition_eq line = Some (key, tail)).
Proof.
  intros Hk. unfold PyStr.startswith. split.
  - intros [r ->]%prefix_inv. exists r.
    rewrite append_assoc. now apply partition_eq_append.
  - intros [tail [-> _]%partition_eq_inv].
    rewrite <- append_assoc. apply prefix_append.
Qed.

(** Without equals signs in the keys, the inner loop is a dictionary
    lookup of the text before the line's first equals sign. *)
Lemma replace_first_match_lookup
    (env : list (string * string)) (line : string) :
  (forall k v, In (k, v) env -> no_equals k = true) ->
  replace_first_match env line = lookup_line env line.
Proof.
  intros Hkeys. unfold lookup_line.
  induction env as [|[k v] env IH]; simpl.
  - destruct (partition_eq line) as [[key tail]|]; reflexivity.
  - assert (Hk : no_equals k = true) by (apply (Hkeys k v); now left).
    assert (IH' := IH (fun k' v' H => Hkeys k' v' (or_intror H))).
    destruct (PyStr.startswith line (k +:+ "=")) eqn:Hs.
    + apply (startswith_key_partition line k Hk) in Hs as [tail ->].
      now rewrite String.eqb_refl.
    + rewrite IH'. destruct (partition_eq line) as [[key tail]|] eqn:Hp;
        [|reflexivity].
      destruct (String.eqb_spec k key) as [->|Hne]; [|reflexivity].
      assert (PyStr.startswith line (key +:+ "=") = true) as Ht
        by (apply (startswith_key_partition line key Hk); eauto).
      congruence.
Qed.

(** X2: when no key of the mapping contains an equals sign, the whole
    substitution is a dictionary lookup per line: a stripped line that
    is neither blank nor a comment becomes key=value for the entry of
    the text before its first equals sign, and is kept when it has no
    equals sign or that text is no key. *)
Theorem substitution_is_lookup
    (env : list (string * string)) (lines : list string) :
  (forall k v, In (k, v) env -> no_equals k = true) ->
  process_lines env lines
  = map (fun line =>
           let line := PyStr.strip line in
           if String.eqb line EmptyString || PyStr.startswith line "#"
           then line else lookup_line env line)
        lines.
Proof.
  intros Hkeys. rewrite process_lines_map. apply map_ext. intros line.
  unfold output_line. cbv zeta.
  destruct (String.eqb (PyStr.strip line) EmptyString
            || PyStr.startswith (PyStr.strip line) "#"); [reflexivity|].
  now apply replace_first_match_lookup.
Qed.

Lemma substitution_is_lookup_witness :
  process_lines [("FOO", "new1"); ("FOOBAR", "new2")]
                ["FOOBAR=old"; "# FOO=1"; "FOO"; " FOO=x "]
  = map (fun line =>
           let line := PyStr.strip line in
           if String.eqb line EmptyString || PyStr.startswith line "#"
           then line
           else lookup_line [("FOO", "new1"); ("FOOBAR", "new2")] line)
        ["FOOBAR=old"; "# FOO=1"; "FOO"; " FOO=x "].
Proof.
  apply (substitution_is_lookup
           [("FOO", "new1"); ("FOOBAR", "new2")]
           ["FOOBAR=old"; "# FOO=1"; "FOO"; " FOO=x "]).
  intros k v [H|[H|[]]]; inversion H; reflexivity.
Defined.

(** ** Stripping and replaced lines *)

Lemma lstrip_fixed s : PyStr.no_leading_space s = true -> PyStr.lstrip s = s.
Proof.
  destruct s as [|c s]; [reflexivity|].
  unfold PyStr.no_leading_space. simpl.
  now intros ->%negb_true_iff.
Qed.

Lemma rstrip_append p t :
  p <> EmptyString -> PyStr.no_trailing_space p = true ->
  PyStr.rstrip (p +:+ t) = p +:+ PyStr.rstrip t.
Proof.
  unfold PyStr.no_trailing_space.
  induction p as [|c p IH]; intros Hne Hp; [congruence|].
  rewrite !append_cons. cbn [PyStr.rstrip].
  destruct p as [|d p].
  - simpl in Hp. apply negb_true_iff in Hp.
    change (EmptyString +:+ t) with t.
    change (EmptyString +:+ PyStr.rstrip t) with (PyStr.rstrip t).
    rewrite Hp. now destruct (PyStr.rstrip t).
  - rewrite IH by (congruence || exact Hp). now rewrite append_cons.
Qed.

Lemma rstrip_fixed s : PyStr.no_trailing_space s = true -> PyStr.rstrip s = s.
Proof.
  intros H. destruct s as [|c s]; [reflexivity|].
  pose proof (rstrip_append (String c s) EmptyString) as Hr.
  assert (Hnil : forall a, a +:+ EmptyString = a)
    by (induction a as [|x a IHa]; [reflexivity|rewrite append_cons; congruence]).
  rewrite Hnil in Hr. rewrite Hr by (congruence || exact H).
  apply Hnil.
Qed.

(** Stripping a string that has whitespace at neither end changes
    nothing. *)
Lemma strip_fixed s :
  PyStr.no_leading_space s = true -> PyStr.no_trailing_space s = true ->
  PyStr.strip s = s.
Proof.
  intros Hl Ht. unfold PyStr.strip. rewrite (rstrip_fixed s Ht).
  now apply lstrip_fixed.
Qed.

Lemma startswith_hash s :
  PyStr.startswith s "#" =
  match PyStr.first_char s with
  | Some c => Ascii.eqb c "#"%char
  | None => false
  end.
Proof.
  unfold PyStr.startswith. destruct s as [|c s]; [reflexivity|].
  change (String.prefix "#" (String c s))
    with (if ascii_dec "#" c then String.prefix EmptyString s else false).
  cbn [PyStr.first_char].
  destruct (ascii_dec "#" c) as [<-|Hne].
  - now destruct s.
  - symmetry. apply Ascii.eqb_neq. congruence.
Qed.

Lemma first_char_key_eq key tail :
  PyStr.first_char (key +:+ "=" +:+ tail)
  = match PyStr.first_char key with
    | Some c => Some c
    | None => Some EQUALS
    end.
Proof. now destruct key. Qed.

Lemma dict_get_In env : forall k v,
  dict_get env k = Some v -> In (k, v) env.
Proof.
  induction env as [|[k0 v0] env IH]; intros k v H; simpl in H; [discriminate|].
  destruct (String.eqb_spec k0 k) as [->|_].
  - injection H as ->. now left.
  - right. now apply IH.
Qed.

(** A line that starts with a key of the mapping and an equals sign
    becomes key=value, whatever follows the equals sign. *)
Lemma output_line_matched env key value tail :
  (forall k v, In (k, v) env -> no_equals k = true) ->
  dict_get env key = Some value ->
  PyStr.no_leading_space key = true ->
  PyStr.startswith key "#" = false ->
  output_line env (key +:+ "=" +:+ tail) = key +:+ "=" +:+ value.
Proof.
  intros Hkeys Hget Hlead Hhash.
  assert (Hk : no_equals key = true)
    by (apply (Hkeys key value), dict_get_In, Hget).
  assert (Hstrip : PyStr.strip (key +:+ "=" +:+ tail)
                   = key +:+ "=" +:+ PyStr.rstrip tail).
  { unfold PyStr.strip. rewrite <- append_assoc.
    rewrite rstrip_append.
    - rewrite append_assoc. apply lstrip_fixed.
      unfold PyStr.no_leading_space in *. rewrite first_char_key_eq.
      now destruct (PyStr.first_char key).
    - now destruct key.
    - unfold PyStr.no_trailing_space. now rewrite last_char_append. }
  unfold output_line. rewrite Hstrip.
  assert (String.eqb (key +:+ "=" +:+ PyStr.rstrip tail) EmptyString = false)
    as -> by (apply String.eqb_neq; now destruct key).
  rewrite startswith_hash, first_char_key_eq.
  rewrite startswith_hash in Hhash.
  destruct (PyStr.first_char key) as [c|] eqn:Hc.
  - rewrite Hhash. simpl.
    rewrite replace_first_match_lookup by exact Hkeys.
    unfold lookup_line. now rewrite (partition_eq_append key _ Hk), Hget.
  - simpl.
    rewrite replace_first_match_lookup by exact Hkeys.
    unfold lookup_line. now rewrite (partition_eq_append key _ Hk), Hget.
Qed.

(** X3: the old value is discarded. When no key contains an equals
    sign, a template line made of a key of the mapping (not starting
    with whitespace or the comment marker), an equals sign and any text
    at all is written as key=value. *)
Theorem matched_line_discards_old_value
    (env : list (string * string)) (lines : list string) (i : nat)
    (key value tail : string) :
  (forall k v, In (k, v) env -> no_equals k = true) ->
  dict_get env key = Some value ->
  PyStr.no_leading_space key = true ->
  PyStr.startswith key "#" = false ->
  lines !! i = Some (key +:+ "=" +:+ tail) ->
  process_lines env lines !! i = Some (key +:+ "=" +:+ value).
Proof.
  intros Hkeys Hget Hlead Hhash Hi.
  rewrite process_lines_map, list_lookup_fmap, Hi. simpl. f_equal.
  now apply output_line_matched.
Qed.

Lemma matched_line_discards_old_value_witness :
  process_lines [("FOO", "new1"); ("BAR", "new2")]
                ["# c"; "BAR" +:+ "=" +:+ "old = value # note "] !! 1%nat
  = Some ("BAR" +:+ "=" +:+ "new2").
Proof.
  apply (matched_line_discards_old_value
           [("FOO", "new1"); ("BAR", "new2")]
           ["# c"; "BAR" +:+ "=" +:+ "old = value # note "] 1
           "BAR" "new2" "old = value # note ").
  - intros k v [H|[H|[]]]; inversion H; reflexivity.
  - reflexivity.
  - reflexivity.
  - reflexivity.
  - reflexivity.
Defined.

(** A line that starts with a key (not starting with whitespace) and an
    equals sign keeps both when it is stripped; only the whitespace at
    its end goes. *)
Lemma strip_key_line key tail :
  PyStr.no_leading_space key = true ->
  PyStr.strip (key +:+ "=" +:+ tail) = key +:+ "=" +:+ PyStr.rstrip tail.
Proof.
  intros Hlead. unfold PyStr.strip. rewrite <- append_assoc.
  rewrite rstrip_append.
  - rewrite append_assoc. apply lstrip_fixed.
    unfold PyStr.no_leading_space in *. rewrite first_char_key_eq.
    now destruct (PyStr.first_char key).
  - now destruct key.
  - unfold PyStr.no_trailing_space. now rewrite last_char_append.
Qed.

(** X1: matching is exact on the key. When no key of the mapping
    contains an equals sign, a template line made of a name that is not
    a key of the mapping (without equals sign or leading whitespace),
    an equals sign and any text is never substituted, even when a key
    of the mapping is a prefix of that name (FOO against FOOBAR=...):
    it is written as it is, without the whitespace at its end. *)
Theorem line_of_other_key_is_kept
    (env : list (string * string)) (lines : list string) (i : nat)
    (other tail : string) :
  (forall k v, In (k, v) env -> no_equals k = true) ->
  no_equals other = true ->
  PyStr.no_leading_space other = true ->
  ~ In other (map fst env) ->
  lines !! i = Some (other +:+ "=" +:+ tail) ->
  process_lines env lines !! i
  = Some (other +:+ "=" +:+ PyStr.rstrip tail).
Proof.
  intros Hkeys Ho Hlead Hnot Hi.
  rewrite process_lines_map, list_lookup_fmap, Hi. simpl. f_equal.
  unfold output_line. rewrite (strip_key_line other tail Hlead).
  destruct (String.eqb (other +:+ "=" +:+ PyStr.rstrip tail) EmptyString
            || PyStr.startswith (other +:+ "=" +:+ PyStr.rstrip tail) "#");
    [reflexivity|].
  rewrite replace_first_match_lookup by exact Hkeys.
  unfold lookup_line. rewrite (partition_eq_append other _ Ho).
  destruct (dict_get env other) as [v|] eqn:Hg; [|reflexivity].
  exfalso. apply Hnot. apply dict_get_In in Hg.
  apply (in_map fst) in Hg. exact Hg.
Qed.

Lemma line_of_other_key_is_kept_witness :
  process_lines [("FOO", "new1")] ["# c"; "FOOBAR" +:+ "=" +:+ "old  "]
    !! 1%nat
  = Some ("FOOBAR" +:+ "=" +:+ PyStr.rstrip "old  ").
Proof.
  apply (line_of_other_key_is_kept
           [("FOO", "new1")] ["# c"; "FOOBAR" +:+ "=" +:+ "old  "] 1
           "FOOBAR" "old  ").
  - intros k v [H|[]]. inversion H. reflexivity.
  - reflexivity.
  - reflexivity.
  - intros [H|[]]. discriminate.
  - reflexivity.
Defined.

(** ** Running the substitution again, and the order of the keys *)

Lemma output_line_stripped_input env s :
  PyStr.no_leading_space s = true -> PyStr.no_trailing_space s = true ->
  output_line env s
  = if String.eqb s EmptyString || PyStr.startswith s "#" then s
    else replace_first_match env s.
Proof.
  intros Hl Ht. unfold output_line. now rewrite (strip_fixed s Hl Ht).
Qed.

Lemma output_line_idempotent env line :
  (forall k v, In (k, v) env -> no_equals k = true) ->
  output_line env (output_line env line) = output_line env line.
Proof.
  intros Hkeys.
  destruct (strip_no_outer_space line) as [Hl Ht].
  unfold output_line at 2. unfold output_line at 2.
  set (s := PyStr.strip line) in *.
  destruct (String.eqb s EmptyString || PyStr.startswith s "#") eqn:Hc.
  - rewrite (output_line_stripped_input env s Hl Ht). now rewrite Hc.
  - rewrite (replace_first_match_lookup env s Hkeys).
    assert (Hs : output_line env s = lookup_line env s).
    { rewrite (output_line_stripped_input env s Hl Ht), Hc.
      now apply replace_first_match_lookup. }
    unfold lookup_line in *.
    destruct (partition_eq s) as [[key tail]|] eqn:Hp; [|exact Hs].
    destruct (dict_get env key) as [value|] eqn:Hg; [|exact Hs].
    apply partition_eq_inv in Hp as [Hp _].
    apply orb_false_iff in Hc as [_ Hhash].
    apply output_line_matched; try assumption.
    + unfold PyStr.no_leading_space in *.
      rewrite Hp, first_char_key_eq in Hl.
      now destruct (PyStr.first_char key).
    + rewrite startswith_hash in *. rewrite Hp, first_char_key_eq in Hhash.
      now destruct (PyStr.first_char key).
Qed.

(** X4: substitution is idempotent. When no key contains an equals
    sign, processing the processed lines again with the same mapping
    gives the same lines. *)
Theorem substitution_idempotent
    (env : list (string * string)) (lines : list string) :
  (forall k v, In (k, v) env -> no_equals k = true) ->
  process_lines env (process_lines env lines) = process_lines env lines.
Proof.
  intros Hkeys. rewrite !process_lines_map, map_map.
  apply map_ext. intros line. now apply output_line_idempotent.
Qed.

Lemma substitution_idempotent_witness :
  process_lines [("FOO", " new value ")]
    (process_lines [("FOO", " new value ")] ["  FOO=old "; " # c "; "BAZ = 1"])
  = process_lines [("FOO", " new value ")] ["  FOO=old "; " # c "; "BAZ = 1"].
Proof.
  apply (substitution_idempotent
           [("FOO", " new value ")] ["  FOO=old "; " # c "; "BAZ = 1"]).
  intros k v [H|[]]; inversion H; reflexivity.
Defined.

Lemma In_dict_get env : forall k v,
  NoDup (map fst env) -> In (k, v) env -> dict_get env k = Some v.
Proof.
  induction env as [|[k0 v0] env IH]; intros k v Hnd Hin; [destruct Hin|].
  simpl in *. apply NoDup_cons in Hnd as [Hnotin Hnd].
  destruct Hin as [Heq|Hin].
  - injection Heq as -> ->. now rewrite String.eqb_refl.
  - destruct (String.eqb_spec k0 k) as [->|_]; [|now apply IH].
    exfalso. apply Hnotin. apply list_elem_of_In.
    apply (in_map fst) in Hin. exact Hin.
Qed.

Lemma dict_get_permutation env env' k :
  Permutation env env' -> NoDup (map fst env) ->
  dict_get env k = dict_get env' k.
Proof.
  intros Hp Hnd.
  assert (Hnd' : NoDup (map fst env'))
    by (apply (NoDup_Permutation_proper _ _ (Permutation_map fst Hp));
        exact Hnd).
  destruct (dict_get env k) as [v|] eqn:E.
  - symmetry. apply In_dict_get; [exact Hnd'|].
    eapply Permutation_in; [exact Hp|]. now apply dict_get_In.
  - destruct (dict_get env' k) as [v'|] eqn:E'; [|reflexivity].
    apply dict_get_In in E'.
    apply (Permutation_in _ (Permutation_sym Hp)) in E'.
    apply (In_dict_get _ _ _ Hnd) in E'. congruence.
Qed.

(** X5: the order of the entries does not matter for a mapping with
    distinct keys without equals signs: any reordering of the mapping
    gives the same processed lines. *)
Theorem substitution_order_independent
    (env env' : list (string * string)) (lines : list string) :
  Permutation env env' ->
  NoDup (map fst env) ->
  (forall k v, In (k, v) env -> no_equals k = true) ->
  process_lines env lines = process_lines env' lines.
Proof.
  intros Hp Hnd Hkeys.
  assert (Hkeys' : forall k v, In (k, v) env' -> no_equals k = true).
  { intros k v Hin. apply (Hkeys k v).
    eapply Permutation_in; [apply Permutation_sym, Hp|exact Hin]. }
  rewrite !process_lines_map. apply map_ext. intros line.
  unfold output_line.
  destruct (String.eqb (PyStr.strip line) EmptyString
            || PyStr.startswith (PyStr.strip line) "#"); [reflexivity|].
  rewrite !replace_first_match_lookup by assumption.
  unfold lookup_line.
  destruct (partition_eq (PyStr.strip line)) as [[key tail]|]; [|reflexivity].
  now rewrite (dict_get_permutation env env' key Hp Hnd).
Qed.

Lemma substitution_order_independent_witness :
  process_lines [("FOO", "new1"); ("FOOBAR", "new2")] ["FOOBAR=x"; "FOO=y"]
  = process_lines [("FOOBAR", "new2"); ("FOO", "new1")] ["FOOBAR=x"; "FOO=y"].
Proof.
  apply (substitution_order_independent
           [("FOO", "new1"); ("FOOBAR", "new2")]
           [("FOOBAR", "new2"); ("FOO", "new1")] ["FOOBAR=x"; "FOO=y"]).
  - apply perm_swap.
  - apply NoDup_cons. split; [|apply NoDup_cons; split; [|apply NoDup_nil; exact I]].
    + intros H%list_elem_of_In. destruct H as [H|[]]. discriminate.
    + intros H%list_elem_of_In. destruct H.
  - intros k v [H|[H|[]]]; inversion H; reflexivity.
Defined.

(** ** More on the random value generator *)

Lemma all_chars_lstrip p s :
  PyStr.all_chars p s = true -> PyStr.all_chars p (PyStr.lstrip s) = true.
Proof.
  induction s as [|c s IH]; [trivial|]. simpl.
  intros H. destruct (PyStr.isspace c); [|exact H].
  apply andb_true_iff in H as [_ H]. now apply IH.
Qed.

Lemma all_chars_rstrip p s :
  PyStr.all_chars p s = true -> PyStr.all_chars p (PyStr.rstrip s) = true.
Proof.
  induction s as [|c s IH]; [trivial|]. simpl.
  intros [Hc Hs]%andb_true_iff. specialize (IH Hs).
  destruct (PyStr.rstrip s) as [|d r].
  - destruct (PyStr.isspace c); simpl; [reflexivity|now rewrite Hc].
  - simpl in *. now rewrite Hc.
Qed.

Lemma all_chars_no_leading_space p s :
  (forall c, p c = true -> PyStr.isspace c = false) ->
  PyStr.all_chars p s = true -> PyStr.no_leading_space s = true.
Proof.
  intros Hp. destruct s as [|c s]; [reflexivity|]. simpl.
  intros [Hc _]%andb_true_iff. unfold PyStr.no_leading_space. simpl.
  now rewrite (Hp _ Hc).
Qed.

Lemma alphabet_no_space special c :
  PyStr.contains (alphabet_of special) c = true -> PyStr.isspace c = false.
Proof.
  intros Hc. apply negb_true_iff.
  apply (contains_all_chars (fun c => negb (PyStr.isspace c))
           (alphabet_of special) c); [now destruct special|exact Hc].
Qed.

(** X6: a generated value contains no whitespace character, whatever
    the length and the flag, so stripping it (as the substitution does
    with every template line) leaves it as it is. *)
Theorem generated_value_has_no_whitespace
    (L : Z) (special : bool) (w : World) :
  exists s w',
    generate_random_string L special w = (Ok s, w') /\
    PyStr.all_chars (fun c => negb (PyStr.isspace c)) s = true /\
    PyStr.strip s = s.
Proof.
  destruct (generate_random_string_run L special w) as (s & Hrun & _ & Hall).
  exists s, (advance w (Z.to_nat L)). split; [exact Hrun|]. split.
  - revert Hall. apply all_chars_impl. intros c Hc.
    apply negb_true_iff. now apply (alphabet_no_space special).
  - apply strip_fixed.
    + eapply all_chars_no_leading_space; [|exact Hall].
      apply alphabet_no_space.
    + eapply all_chars_no_trailing_space; [|exact Hall].
      apply alphabet_no_space.
Qed.

Lemma index_of_get a c :
  PyStr.contains a c = true ->
  (index_of c a < String.length a)%nat /\
  String.get (index_of c a) a = Some c.
Proof.
  induction a as [|d a IH]; [discriminate|]. simpl.
  destruct (Ascii.eqb d c) eqn:E.
  - intros _. apply Ascii.eqb_eq in E. subst. split; [lia|reflexivity].
  - simpl. intros H. destruct (IH H) as [Hlt Hget]. split; [lia|exact Hget].
Qed.

Lemma repeatM_choice_yields alphabet : forall chars w,
  (forall i c, nth_error chars i = Some c ->
               PyStr.contains alphabet c = true /\
               entropy w (drawn w + i) = index_of c alphabet) ->
  repeatM (List.length chars) (secrets_choice alphabet) w
  = (Ok chars, advance w (List.length chars)).
Proof.
  induction chars as [|c chars IH]; intros w H.
  - simpl. unfold ret. now rewrite advance_0.
  - destruct (H 0%nat c eq_refl) as [Hin Hent].
    destruct (index_of_get alphabet c Hin) as [Hlt Hget].
    assert (Hc : secrets_choice alphabet w = (Ok c, advance w 1)).
    { unfold secrets_choice.
      destruct (String.length alphabet) as [|n] eqn:El; [lia|].
      rewrite Nat.add_0_r in Hent. rewrite Hent.
      rewrite Nat.mod_small by lia. now rewrite Hget. }
    assert (Hrest : repeatM (List.length chars) (secrets_choice alphabet)
                      (advance w 1)
                    = (Ok chars, advance (advance w 1) (List.length chars))).
    { apply IH. intros i d Hd. destruct (H (S i) d Hd) as [Hd1 Hd2].
      split; [exact Hd1|]. simpl. rewrite <- Hd2. f_equal. lia. }
    cbn [List.length repeatM].
    rewrite (bind_ok _ _ _ _ _ Hc), (bind_ok _ _ _ _ _ Hrest).
    unfold ret. f_equal. unfold advance. simpl. f_equal. lia.
Qed.

Lemma nth_error_get s : forall i,
  nth_error (list_ascii_of_string s) i = String.get i s.
Proof.
  induction s as [|c s IH]; intros [|i]; simpl; try reflexivity. apply IH.
Qed.

Lemma get_all_chars p s : forall i c,
  PyStr.all_chars p s = true -> String.get i s = Some c -> p c = true.
Proof.
  induction s as [|d s IH]; intros i c H Hg; simpl in *; [discriminate|].
  apply andb_true_iff in H as [Hd Hs]. destruct i as [|i].
  - now injection Hg as <-.
  - now apply (IH i).
Qed.

Lemma length_list_ascii s :
  List.length (list_ascii_of_string s) = String.length s.
Proof. induction s as [|c s IH]; simpl; [reflexivity|now rewrite IH]. Qed.

(** X7: every string over the alphabet can come out. For each string
    whose characters all belong to the generator's alphabet there is a
    random source for which the generator, asked for that length,
    returns exactly that string; in particular a value may begin with
    the comment marker or contain the equals sign when the flag is
    set. *)
Theorem every_alphabet_string_is_generated
    (special : bool) (target : string) (w : World) :
  PyStr.all_chars (PyStr.contains (alphabet_of special)) target = true ->
  fst (generate_random_string (Z.of_nat (String.length target)) special
         (world_yielding (alphabet_of special) target w))
  = Ok target.
Proof.
  intros Hall. unfold generate_random_string.
  rewrite Nat2Z.id, <- (length_list_ascii target).
  assert (Hrun : repeatM (List.length (list_ascii_of_string target))
                   (secrets_choice (alphabet_of special))
                   (world_yielding (alphabet_of special) target w)
                 = (Ok (list_ascii_of_string target),
                    advance (world_yielding (alphabet_of special) target w)
                            (List.length (list_ascii_of_string target)))).
  { apply repeatM_choice_yields. intros i c Hi.
    rewrite nth_error_get in Hi. split.
    - exact (get_all_chars _ _ _ _ Hall Hi).
    - unfold world_yielding. simpl.
      replace (drawn w + i - drawn w)%nat with i by lia. now rewrite Hi. }
  rewrite (bind_ok _ _ _ _ _ Hrun).
  unfold ret. simpl. rewrite join_chars.
  now rewrite string_of_list_ascii_of_string.
Qed.

Lemma every_alphabet_string_is_generated_witness :
  fst (generate_random_string (Z.of_nat (String.length "#a=b$")) true
         (world_yielding (alphabet_of true) "#a=b$" sample_world))
  = Ok "#a=b$".
Proof.
  apply (every_alphabet_string_is_generated true "#a=b$" sample_world).
  reflexivity.
Defined.

(** ** The builder's mapping, continued *)

Lemma builder_keys_distinct : NoDup builder_keys.
Proof. apply (bool_decide_unpack _). vm_compute. exact I. Qed.

Lemma builder_keys_plain :
  Forall (fun k => no_equals k = true /\
                   PyStr.no_leading_space k = true /\
                   PyStr.startswith k "#" = false) builder_keys.
Proof. repeat (apply Forall_cons; split; [repeat split|]). apply Forall_nil. exact I. Qed.

Lemma keys_of_entries (env : list (string * string)) k v :
  In (k, v) env -> k ∈ map fst env.
Proof. intros H. apply list_elem_of_In. apply (in_map fst) in H. exact H. Qed.

Lemma dict_get_key env : forall k,
  k ∈ map fst env -> exists v, dict_get env k = Some v.
Proof.
  induction env as [|[k0 v0] env IH]; intros k H; simpl in *.
  - apply elem_of_nil in H. destruct H.
  - destruct (String.eqb_spec k0 k) as [->|Hne]; [eauto|].
    apply elem_of_cons in H as [->|H]; [congruence|]. now apply IH.
Qed.

Section BuilderFacts.

Variable hmac_sha256 : list Byte.byte -> list Byte.byte -> list Byte.byte.

(** X8: the builder never fails and always returns the same seventeen
    keys in the same order; they are pairwise distinct, none contains
    an equals sign, and three of them carry fixed texts. *)
Theorem builder_returns_fixed_keys (w : World) :
  exists env w',
    generate_env_values hmac_sha256 w = (Ok env, w') /\
    map fst env = builder_keys /\
    List.length env = 17%nat /\
    NoDup (map fst env) /\
    (forall k v, In (k, v) env -> no_equals k = true) /\
    dict_get env "DASHBOARD_USERNAME" = Some "admin" /\
    dict_get env "SMTP_ADMIN_EMAIL" = Some "admin@yourdomain.com" /\
    dict_get env "SMTP_SENDER_NAME" = Some "Supabase Admin".
Proof.
  destruct (generate_env_values_run hmac_sha256 w)
    as (env & Hrun & Hkeys & H1 & H2 & H3 & _).
  exists env. eexists. split; [exact Hrun|]. split; [exact Hkeys|].
  split; [now rewrite <- (length_map fst), Hkeys|].
  split; [rewrite Hkeys; apply builder_keys_distinct|].
  split; [|auto].
  intros k v Hin%keys_of_entries. rewrite Hkeys in Hin.
  pose proof builder_keys_plain as Hp.
  rewrite Forall_forall in Hp. now apply Hp.
Qed.

(** X9: each randomly generated entry has its own fixed length and
    alphabet: 40, 40, 32 with special characters, 40, 16 with special
    characters, 20, 40, 64, 40, 40, 12, and 16 with special characters;
    the others use letters and digits only. *)
Theorem builder_random_values (w : World) :
  exists env w',
    generate_env_values hmac_sha256 w = (Ok env, w') /\
    Forall (fun e =>
              exists v, dict_get env (fst e) = Some v /\
                        String.length v = fst (snd e) /\
                        PyStr.all_chars
                          (PyStr.contains (alphabet_of (snd (snd e)))) v = true)
           random_entries.
Proof.
  destruct (generate_env_values_run hmac_sha256 w)
    as (env & Hrun & _ & _ & _ & _ & Hall).
  exists env. eexists. split; [exact Hrun|exact Hall].
Qed.

(** X10: one run of the builder draws exactly 400 numbers from the
    random source and reads the clock exactly twice; it does not touch
    the file system. *)
Theorem builder_effects (w : World) :
  exists env w',
    generate_env_values hmac_sha256 w = (Ok env, w') /\
    drawn w' = (400 + drawn w)%nat /\
    reads w' = (2 + reads w)%nat /\
    fs w' = fs w /\ entropy w' = entropy w /\ clock w' = clock w.
Proof.
  destruct (generate_env_values_run hmac_sha256 w) as (env & Hrun & _).
  exists env. eexists. split; [exact Hrun|]. repeat split.
Qed.

(** X11: with the builder's mapping, every template line that consists
    of one of its keys, an equals sign and any text is written as that
    key, the equals sign and the generated value. *)
Theorem builder_mapping_fills_its_keys (w : World) :
  exists env w',
    generate_env_values hmac_sha256 w = (Ok env, w') /\
    forall key tail,
      key ∈ builder_keys ->
      exists value,
        dict_get env key = Some value /\
        process_lines env [key +:+ "=" +:+ tail]
        = [key +:+ "=" +:+ value].
Proof.
  destruct (generate_env_values_run hmac_sha256 w)
    as (env & Hrun & Hkeys & _).
  assert (Hne : forall k v, In (k, v) env -> no_equals k = true).
  { intros k v Hin%keys_of_entries. rewrite Hkeys in Hin.
    pose proof builder_keys_plain as Hp.
    rewrite Forall_forall in Hp. now apply Hp. }
  exists env. eexists. split; [exact Hrun|].
  intros key tail Hkey.
  destruct (dict_get_key env key) as [value Hv]; [now rewrite Hkeys|].
  exists value. split; [exact Hv|].
  rewrite process_lines_map. simpl. f_equal.
  pose proof builder_keys_plain as Hp. rewrite Forall_forall in Hp.
  destruct (Hp key Hkey) as (_ & Hl & Hh).
  now apply output_line_matched.
Qed.

End BuilderFacts.

(** ** One physical line per template line *)

Lemma all_chars_append p a b :
  PyStr.all_chars p (a +:+ b) = PyStr.all_chars p a && PyStr.all_chars p b.
Proof.
  induction a as [|c a IH]; [reflexivity|].
  rewrite append_cons. simpl. now rewrite IH, andb_assoc.
Qed.

Lemma universal_newlines_no_cr s :
  PyStr.all_chars (fun c => negb (Ascii.eqb c PyStr.CR))
                  (PyStr.universal_newlines s) = true.
Proof.
  induction s as [|c s IH]; [reflexivity|].
  cbn [PyStr.universal_newlines].
  destruct (Ascii.eqb c PyStr.CR) eqn:Ec.
  - destruct s as [|d s]; [reflexivity|].
    destruct (Ascii.eqb d PyStr.LF); [exact IH|].
    cbn [PyStr.all_chars]. now rewrite IH.
  - cbn [PyStr.all_chars]. now rewrite Ec, IH.
Qed.

Lemma readlines_shape t :
  PyStr.all_chars (fun c => negb (Ascii.eqb c PyStr.CR)) t = true ->
  Forall line_shape (PyStr.readlines t).
Proof.
  induction t as [|c t IH]; [intros _; apply Forall_nil; exact I|].
  cbn [PyStr.all_chars PyStr.readlines].
  intros [Hc Ht]%andb_true_iff. specialize (IH Ht).
  destruct (Ascii.eqb c PyStr.LF) eqn:El.
  - apply Forall_cons. split; [|exact IH].
    apply Ascii.eqb_eq in El. subst c.
    exists EmptyString. split; [reflexivity|right; reflexivity].
  - assert (Hn : not_newline c = true) by (unfold not_newline; now rewrite El, Hc).
    destruct (PyStr.readlines t) as [|l ls].
    + apply Forall_cons. split; [|apply Forall_nil; exact I].
      exists (String c EmptyString). split; [simpl; now rewrite Hn|now left].
    + apply Forall_cons in IH as [(body & Hb & Hl) Hls].
      apply Forall_cons. split; [|exact Hls].
      exists (String c body). split; [simpl; now rewrite Hn, Hb|].
      destruct Hl as [->| ->]; [now left|right; now rewrite append_cons].
Qed.

Lemma rstrip_append_space s c :
  PyStr.isspace c = true ->
  PyStr.rstrip (s +:+ String c EmptyString) = PyStr.rstrip s.
Proof.
  intros Hc. induction s as [|d s IH].
  - simpl. now rewrite Hc.
  - rewrite append_cons. cbn [PyStr.rstrip]. now rewrite IH.
Qed.

Lemma strip_line_shape l :
  line_shape l -> PyStr.all_chars not_newline (PyStr.strip l) = true.
Proof.
  intros (body & Hb & [->| ->]); unfold PyStr.strip.
  - now apply all_chars_lstrip, all_chars_rstrip.
  - rewrite rstrip_append_space by reflexivity.
    now apply all_chars_lstrip, all_chars_rstrip.
Qed.

Lemma all_chars_prefix q p : forall s,
  String.prefix p s = true ->
  PyStr.all_chars q s = true -> PyStr.all_chars q p = true.
Proof.
  intros s [r ->]%prefix_inv. rewrite all_chars_append.
  now intros [H _]%andb_true_iff.
Qed.

Lemma output_line_no_newline env l :
  (forall k v, In (k, v) env -> PyStr.all_chars not_newline v = true) ->
  line_shape l ->
  PyStr.all_chars not_newline (output_line env l) = true.
Proof.
  intros Hv Hl. apply strip_line_shape in Hl. unfold output_line.
  destruct (String.eqb (PyStr.strip l) EmptyString
            || PyStr.startswith (PyStr.strip l) "#"); [exact Hl|].
  destruct (replace_cases env (PyStr.strip l))
    as [->|(k & v & Hin & Hs & ->)]; [exact Hl|].
  rewrite <- append_assoc, all_chars_append.
  rewrite (all_chars_prefix not_newline _ _ Hs Hl).
  exact (Hv k v Hin).
Qed.

Lemma split_join sep : forall lines,
  lines <> [] ->
  Forall (fun l => PyStr.all_chars (fun c => negb (Ascii.eqb c sep)) l = true)
         lines ->
  PyStr.split sep (PyStr.join (String sep EmptyString) lines) = lines.
Proof.
  assert (Hone : forall s,
             PyStr.all_chars (fun c => negb (Ascii.eqb c sep)) s = true ->
             PyStr.split sep s = [s]).
  { induction s as [|c s IHs]; [reflexivity|]. simpl.
    intros [Hc Hs]%andb_true_iff. apply negb_true_iff in Hc.
    now rewrite Hc, (IHs Hs). }
  assert (Hcut : forall a b,
             PyStr.all_chars (fun c => negb (Ascii.eqb c sep)) a = true ->
             PyStr.split sep (a +:+ String sep b) = a :: PyStr.split sep b).
  { induction a as [|c a IHa]; intros b.
    - intros _. simpl. now rewrite Ascii.eqb_refl.
    - rewrite append_cons. simpl. intros [Hc Ha]%andb_true_iff.
      apply negb_true_iff in Hc. now rewrite Hc, (IHa b Ha). }
  induction lines as [|l lines IH]; intros Hne Hall; [congruence|].
  apply Forall_cons in Hall as [Hl Hall].
  destruct lines as [|l' lines]; [now apply Hone|].
  change (PyStr.join (String sep EmptyString) (l :: l' :: lines))
    with (l +:+ String sep EmptyString
            +:+ PyStr.join (String sep EmptyString) (l' :: lines)).
  rewrite append_cons.
  change (EmptyString +:+ ?x) with x.
  rewrite (Hcut _ _ Hl), IH; [reflexivity|discriminate|exact Hall].
Qed.

(** X12: the written text has one physical line per template line.
    When no value of the mapping contains a line break, no processed
    line of a template file contains one (carriage returns of the
    template are gone too), and splitting the written text at the
    newlines gives back exactly the processed lines. *)
Theorem written_text_has_one_line_per_template_line
    (env : list (string * string)) (content : string) :
  (forall k v, In (k, v) env -> PyStr.all_chars not_newline v = true) ->
  content <> EmptyString ->
  let env_lines := PyStr.readlines (PyStr.universal_newlines content) in
  let new_lines := process_lines env env_lines in
  Forall (fun l => PyStr.all_chars not_newline l = true) new_lines /\
  PyStr.split PyStr.LF (PyStr.join (String PyStr.LF EmptyString) new_lines)
  = new_lines /\
  List.length
    (PyStr.split PyStr.LF (PyStr.join (String PyStr.LF EmptyString) new_lines))
  = List.length env_lines.
Proof.
  intros Hv Hne env_lines new_lines.
  assert (Hall : Forall (fun l => PyStr.all_chars not_newline l = true)
                        new_lines).
  { unfold new_lines. rewrite process_lines_map. apply Forall_fmap.
    eapply Forall_impl; [apply readlines_shape, universal_newlines_no_cr|].
    intros l Hl. simpl. now apply output_line_no_newline. }
  assert (Hsplit : PyStr.split PyStr.LF
                     (PyStr.join (String PyStr.LF EmptyString) new_lines)
                   = new_lines).
  { apply split_join.
    - unfold new_lines. rewrite process_lines_map.
      assert (env_lines <> []) as Hl.
      { unfold env_lines. destruct content as [|c content]; [congruence|].
        cbn [PyStr.universal_newlines].
        destruct (Ascii.eqb c PyStr.CR).
        - destruct content as [|d content]; [discriminate|].
          destruct (Ascii.eqb d PyStr.LF) eqn:Ed.
          + apply Ascii.eqb_eq in Ed. subst d.
            cbn [PyStr.universal_newlines].
            change (Ascii.eqb PyStr.LF PyStr.CR) with false. cbv iota.
            cbn [PyStr.readlines]. rewrite Ascii.eqb_refl. discriminate.
          + cbn [PyStr.readlines]. rewrite Ascii.eqb_refl. discriminate.
        - cbn [PyStr.readlines]. destruct (Ascii.eqb c PyStr.LF);
            [discriminate|].
          destruct (PyStr.readlines (PyStr.universal_newlines content));
            discriminate. }
      destruct env_lines; [congruence|discriminate].
    - eapply Forall_impl; [exact Hall|]. intros l Hl. simpl in *.
      revert Hl. apply all_chars_impl. intros c. unfold not_newline.
      now intros [H _]%andb_true_iff. }
  split; [exact Hall|]. split; [exact Hsplit|].
  rewrite Hsplit. unfold new_lines. rewrite process_lines_map.
  apply length_map.
Qed.

Lemma written_text_has_one_line_per_template_line_witness :
  let env_lines := PyStr.readlines (PyStr.universal_newlines sample_template) in
  let new_lines := process_lines [("FOO", "new1")] env_lines in
  Forall (fun l => PyStr.all_chars not_newline l = true) new_lines /\
  PyStr.split PyStr.LF (PyStr.join (String PyStr.LF EmptyString) new_lines)
  = new_lines /\
  List.length
    (PyStr.split PyStr.LF (PyStr.join (String PyStr.LF EmptyString) new_lines))
  = List.length env_lines.
Proof.
  apply (written_text_has_one_line_per_template_line
           [("FOO", "new1")] sample_template).
  - intros k v [H|[]]. inversion H. reflexivity.
  - discriminate.
Defined.

(** ** The written file *)

(** The four ways a run can go. *)
Lemma create_env_file_cases env w :
  create_env_file env w =
  match fs w !! ".env.example" with
  | None => (Raise (FileNotFoundError ".env.example file not found!"), w)
  | Some Directory => (Raise (IsADirectoryError ".env.example"), w)
  | Some (File content) =>
      match fs w !! ".env" with
      | Some Directory => (Raise (IsADirectoryError ".env"), w)
      | _ =>
          (Ok tt,
           mkWorld (entropy w) (drawn w) (clock w) (reads w)
             (<[".env" :=
                  File (PyStr.join (String PyStr.LF EmptyString)
                          (process_lines env
                             (PyStr.readlines
                                (PyStr.universal_newlines content))))]>
                (fs w)))
      end
  end.
Proof.
  unfold create_env_file, bind, os_path_exists, open_readlines, open_write.
  destruct (fs w !! ".env.example") as [[content|]|] eqn:Ht.
  - rewrite bool_decide_eq_true_2 by eauto. simpl. rewrite Ht.
    destruct (fs w !! ".env") as [[c|]|]; reflexivity.
  - rewrite bool_decide_eq_true_2 by eauto. simpl. now rewrite Ht.
  - rewrite bool_decide_eq_false_2 by (intros [x Hx]; discriminate).
    reflexivity.
Qed.

Lemma readlines_nonempty content :
  content <> EmptyString ->
  PyStr.readlines (PyStr.universal_newlines content) <> [].
Proof.
  intros Hne. destruct content as [|c content]; [congruence|].
  cbn [PyStr.universal_newlines].
  destruct (Ascii.eqb c PyStr.CR).
  - destruct content as [|d content]; [discriminate|].
    destruct (Ascii.eqb d PyStr.LF) eqn:Ed.
    + apply Ascii.eqb_eq in Ed. subst d.
      cbn [PyStr.universal_newlines].
      change (Ascii.eqb PyStr.LF PyStr.CR) with false. cbv iota.
      cbn [PyStr.readlines]. rewrite Ascii.eqb_refl. discriminate.
    + cbn [PyStr.readlines]. rewrite Ascii.eqb_refl. discriminate.
  - cbn [PyStr.readlines]. destruct (Ascii.eqb c PyStr.LF); [discriminate|].
    destruct (PyStr.readlines (PyStr.universal_newlines content));
      discriminate.
Qed.

(** The processed lines of a non-empty template come back when their
    join is split at the newlines, if no value holds a line break. *)
Lemma process_lines_split_join env content :
  (forall k v, In (k, v) env -> PyStr.all_chars not_newline v = true) ->
  content <> EmptyString ->
  PyStr.split PyStr.LF
    (PyStr.join (String PyStr.LF EmptyString)
       (process_lines env
          (PyStr.readlines (PyStr.universal_newlines content))))
  = process_lines env (PyStr.readlines (PyStr.universal_newlines content)).
Proof.
  intros Hv Hne. apply split_join.
  - rewrite process_lines_map.
    pose proof (readlines_nonempty content Hne) as Hl.
    destruct (PyStr.readlines (PyStr.universal_newlines content));
      [congruence|discriminate].
  - rewrite process_lines_map. apply Forall_fmap.
    eapply Forall_impl; [apply readlines_shape, universal_newlines_no_cr|].
    intros l Hl. simpl.
    generalize (output_line_no_newline env l Hv Hl).
    apply all_chars_impl. intros c. unfold not_newline.
    now intros [H _]%andb_true_iff.
Qed.

(** C10, as stated, fails for the written file. A value with a line
    break adds a line: the one-line template FOO=x with FOO mapped to a
    two-line value is written as two lines. And counted as a later
    reading would, a template ending in a blank line loses one: A=1
    and a blank line are read as two lines and written as text that is
    read back as one. *)
Lemma written_file_line_count_differs :
  (List.length (PyStr.readlines (PyStr.universal_newlines "FOO=x")) = 1%nat /\
   fst (create_env_file [("FOO", two_line_value)] one_line_world) = Ok tt /\
   fs (snd (create_env_file [("FOO", two_line_value)] one_line_world))
     !! ".env"
   = Some (File ("FOO=a" +:+ String PyStr.LF "b")) /\
   List.length (PyStr.split PyStr.LF ("FOO=a" +:+ String PyStr.LF "b"))
   = 2%nat /\
   List.length
     (PyStr.readlines
        (PyStr.universal_newlines ("FOO=a" +:+ String PyStr.LF "b")))
   = 2%nat) /\
  (List.length
     (PyStr.readlines
        (PyStr.universal_newlines
           ("A=1" +:+ String PyStr.LF (String PyStr.LF EmptyString))))
   = 2%nat /\
   fst (create_env_file [] blank_tail_world) = Ok tt /\
   fs (snd (create_env_file [] blank_tail_world)) !! ".env"
   = Some (File ("A=1" +:+ String PyStr.LF EmptyString)) /\
   List.length
     (PyStr.readlines
        (PyStr.universal_newlines ("A=1" +:+ String PyStr.LF EmptyString)))
   = 1%nat).
Proof. repeat split; reflexivity. Qed.

(** C10, amended: substitution preserves the line count of the
    processed sequence. Whenever create_env_file succeeds on a template
    file, the output file holds the processed lines joined by newlines;
    there are exactly as many processed lines as lines read, each
    obtained from the template line at the same position (none added,
    none removed). The written text itself, split at its newlines, has
    that many lines provided the template is not empty and no value of
    the mapping contains a line break. *)
Theorem substitution_preserves_line_count
    (env : list (string * string)) (w w' : World) (content : string) :
  fs w !! ".env.example" = Some (File content) ->
  create_env_file env w = (Ok tt, w') ->
  let env_lines :=
    PyStr.readlines (PyStr.universal_newlines content) in
  let new_lines := process_lines env env_lines in
  let text := PyStr.join (String PyStr.LF EmptyString) new_lines in
  fs w' !! ".env" = Some (File text) /\
  List.length new_lines = List.length env_lines /\
  (forall i, new_lines !! i = output_line env <$> env_lines !! i) /\
  (content <> EmptyString ->
   (forall k v, In (k, v) env -> PyStr.all_chars not_newline v = true) ->
   PyStr.split PyStr.LF text = new_lines /\
   List.length (PyStr.split PyStr.LF text) = List.length env_lines).
Proof.
  intros Ht Hrun env_lines new_lines text.
  assert (Hlen : List.length new_lines = List.length env_lines).
  { unfold new_lines. rewrite process_lines_map. apply length_map. }
  split; [|split; [exact Hlen|split]].
  - rewrite create_env_file_cases, Ht in Hrun.
    destruct (fs w !! ".env") as [[c|]|]; try discriminate;
      injection Hrun as <-; apply lookup_insert_eq.
  - intros i. unfold new_lines. rewrite process_lines_map.
    apply list_lookup_fmap.
  - intros Hne Hv.
    assert (Hsplit : PyStr.split PyStr.LF text = new_lines)
      by (apply process_lines_split_join; assumption).
    split; [exact Hsplit|]. now rewrite Hsplit.
Qed.

Lemma substitution_preserves_line_count_witness :
  let env_lines :=
    PyStr.readlines (PyStr.universal_newlines sample_template) in
  let new_lines := process_lines [("FOO", "new1"); ("BAR", "new2")] env_lines in
  let text := PyStr.join (String PyStr.LF EmptyString) new_lines in
  fs (snd (create_env_file [("FOO", "new1"); ("BAR", "new2")] template_world))
    !! ".env" = Some (File text) /\
  List.length new_lines = List.length env_lines /\
  (forall i, new_lines !! i
             = output_line [("FOO", "new1"); ("BAR", "new2")]
                 <$> env_lines !! i) /\
  PyStr.split PyStr.LF text = new_lines /\
  List.length (PyStr.split PyStr.LF text) = List.length env_lines.
Proof.
  destruct (substitution_preserves_line_count
              [("FOO", "new1"); ("BAR", "new2")] template_world
              (snd (create_env_file [("FOO", "new1"); ("BAR", "new2")]
                      template_world))
              sample_template)
    as (Hfile & Hlen & Hpos & Hsplit).
  - reflexivity.
  - reflexivity.
  - split; [exact Hfile|]. split; [exact Hlen|]. split; [exact Hpos|].
    apply Hsplit.
    + discriminate.
    + intros k v [H|[H|[]]]; inversion H; reflexivity.
Defined.

(** ** main *)


Section DriverFacts.

Variable hmac_sha256 : list Byte.byte -> list Byte.byte -> list Byte.byte.

(** X16: when the template is missing, main prints its two progress
    lines and then the error line with the program's message, and
    leaves the file system as it was; the values have been generated
    all the same (400 draws, two clock readings) and are dropped. *)
Theorem main_reports_missing_template (w : World) :
  fs w !! ".env.example" = None ->
  main hmac_sha256 w
  = (["Generating environment variables..."; "Creating .env file...";
      "Error: .env.example file not found!"],
     mkWorld (entropy w) (400 + drawn w) (clock w) (S (S (reads w))) (fs w)).
Proof.
  intros Ht. unfold main.
  destruct (generate_env_values_run hmac_sha256 w) as (env & -> & _).
  rewrite create_env_file_cases. simpl. now rewrite Ht.
Qed.


End DriverFacts.

Lemma main_reports_missing_template_witness :
  main sample_mac sample_world
  = (["Generating environment variables..."; "Creating .env file...";
      "Error: .env.example file not found!"],
     mkWorld (entropy sample_world) (400 + drawn sample_world)
             (clock sample_world) (S (S (reads sample_world)))
             (fs sample_world)).
Proof.
  apply (main_reports_missing_template sample_mac sample_world).
  reflexivity.
Defined.

